(** * Shorts generator: script budgeting, frame timing, encoding, integration

    A shallow embedding of the timed media-assembly pipeline of the
    repository (src/generator/script_generator.py,
    src/generator/video_generator.py,
    src/voice_avatar/alternative_integrator.py,
    src/voice_avatar/voice_video_integrator.py) and the properties the
    specification states about it. *)

From Stdlib Require Import ZArith NArith QArith Qround List String Ascii Lia Bool.
From Stdlib Require Import PrimFloat FloatOps SpecFloat.
From Stdlib Require Uint63.
From stdpp Require Import base option list strings gmap.

Local Open Scope Z_scope.

(** ** Python values *)

(** A Python [str] is a sequence of Unicode code points. *)
Definition codepoint := N.
Definition str := list codepoint.

Module Py.

(** Source literals are UTF-8 text (the files declare [coding: utf-8]);
    [utf8] decodes the bytes of a Rocq string literal into code points. *)
Fixpoint utf8_decode (bs : list N) : str :=
  match bs with
  | [] => []
  | b0 :: r0 =>
      if (b0 <? 128)%N then b0 :: utf8_decode r0
      else match r0 with
        | [] => [b0]
        | b1 :: r1 =>
            if (b0 <? 224)%N
            then ((b0 - 192) * 64 + (b1 - 128))%N :: utf8_decode r1
            else match r1 with
              | [] => [b0; b1]
              | b2 :: r2 =>
                  if (b0 <? 240)%N
                  then ((b0 - 224) * 4096 + (b1 - 128) * 64 + (b2 - 128))%N
                         :: utf8_decode r2
                  else match r2 with
                    | [] => [b0; b1; b2]
                    | b3 :: r3 =>
                        ((b0 - 240) * 262144 + (b1 - 128) * 4096
                         + (b2 - 128) * 64 + (b3 - 128))%N :: utf8_decode r3
                    end
              end
        end
  end.

Definition utf8 (s : string) : str :=
  utf8_decode (List.map N_of_ascii (list_ascii_of_string s)).

Definition space : codepoint := 32%N.
Definition newline : codepoint := 10%N.
Definition slash : codepoint := 47%N.
Definition dot : codepoint := 46%N.
Definition dquote : codepoint := 34%N.

(** [len(x)] as a Python integer. *)
Definition len {A} (l : list A) : Z := Z.of_nat (length l).

(** [str.isspace] on one character: the code points Python 3 treats as
    whitespace. *)
Definition isspace (c : codepoint) : bool :=
  ((9 <=? c) && (c <=? 13) || (28 <=? c) && (c <=? 32)
   || (c =? 133) || (c =? 160) || (c =? 5760)
   || (8192 <=? c) && (c <=? 8202)
   || (c =? 8232) || (c =? 8233) || (c =? 8239) || (c =? 8287)
   || (c =? 12288))%N.

(** [s.split()]: words separated by runs of whitespace, no empty word.
    [w] holds the characters of the word being read. *)
Fixpoint split_from (w : str) (s : str) : list str :=
  match s with
  | [] => match w with [] => [] | _ => [w] end
  | c :: s' =>
      if isspace c
      then match w with
           | [] => split_from [] s'
           | _ => w :: split_from [] s'
           end
      else split_from (w ++ [c]) s'
  end.

Definition split (s : str) : list str := split_from [] s.

(** What [split()] returns: words, not empty and free of whitespace. *)
Definition nonspace (c : codepoint) : Prop := isspace c = false.
Definition word (w : str) : Prop := w <> [] /\ Forall nonspace w.

(** [p.startswith(sep)] for the text [s] that remains to be read. *)
Fixpoint startswith (sep s : str) : bool :=
  match sep, s with
  | [], _ => true
  | _ :: _, [] => false
  | a :: sep', b :: s' => (a =? b)%N && startswith sep' s'
  end.

(** [s.split(sep)] for a non-empty separator: leftmost non-overlapping
    occurrences, empty parts kept.  [skip] counts the characters of a
    separator that was recognised and is still being passed over;
    [part] is the part being read. *)
Fixpoint split_sep_from (sep : str) (skip : nat) (part : str) (s : str)
  : list str :=
  match s with
  | [] => [part]
  | c :: s' =>
      match skip with
      | S k => split_sep_from sep k part s'
      | O =>
          if startswith sep s
          then part :: split_sep_from sep (length sep - 1) [] s'
          else split_sep_from sep 0 (part ++ [c]) s'
      end
  end.

Definition split_sep (sep s : str) : list str := split_sep_from sep 0 [] s.

(** [sep.join(l)]. *)
Fixpoint join (sep : str) (l : list str) : str :=
  match l with
  | [] => []
  | x :: l' =>
      match l' with
      | [] => x
      | _ :: _ => x ++ sep ++ join sep l'
      end
  end.

(** Slices [l[start:stop]]: a negative bound counts from the end, and
    every bound is clamped to [0, len(l)]. *)
Definition clamp (n i : Z) : Z :=
  if i <? 0 then Z.max 0 (i + n) else Z.min i n.

Definition slice {A} (l : list A) (start stop : option Z) : list A :=
  let lo := from_option (clamp (len l)) 0 start in
  let hi := from_option (clamp (len l)) (len l) stop in
  take (Z.to_nat (hi - lo)) (drop (Z.to_nat lo) l).

(** [int(x)] on a number: truncation toward zero. *)
Definition int (q : Q) : Z := Z.quot (Qnum q) (Z.pos (Qden q)).

(** [s.strip()]. *)
Fixpoint lstrip (s : str) : str :=
  match s with
  | [] => []
  | c :: s' => if isspace c then lstrip s' else s
  end.

Definition strip (s : str) : str := rev (lstrip (rev (lstrip s))).

(** [s.upper()] on the letters a-z.  The full Unicode case mapping is
    left out; no other character maps to the letters and digits the
    callers compare with. *)
Definition upper (s : str) : str :=
  List.map (fun c => if ((97 <=? c) && (c <=? 122))%N then (c - 32)%N else c) s.

Definition endswith (s suffix : str) : bool :=
  startswith (rev suffix) (rev s).

(** The lower case of the letters A-Z, which is [s.lower()] on ASCII
    text only, and [s.replace(a, b)] on single characters. *)
Definition lower (s : str) : str :=
  List.map (fun c => if ((65 <=? c) && (c <=? 90))%N then (c + 32)%N else c) s.

Definition replace (a b : codepoint) (s : str) : str :=
  List.map (fun c => if (c =? a)%N then b else c) s.

(** Truth value of a string or list in a condition: non-empty. *)
Definition truthy {A} (l : list A) : bool :=
  match l with [] => false | _ :: _ => true end.

(** [d.get(key, default)] on a key that may be missing. *)
Definition get {A} (field : option A) (default : A) : A :=
  from_option id default field.

End Py.

(** ** The module-level random generator

    [random.choice] reads and advances the state of the generator that the
    [random] module keeps for the whole process.  The state is modelled by
    the sequence of draws it will deliver; [M] threads it through the
    calls. *)
Module Random.

Definition state := nat -> nat.

Definition M (A : Type) : Type := state -> A * state.

Definition ret {A} (a : A) : M A := fun g => (a, g).

Definition bind {A B} (m : M A) (k : A -> M B) : M B :=
  fun g => let (a, g') := m g in k a g'.

(** [_randbelow(n)]: the next draw, reduced below [n]. *)
Definition randbelow (n : nat) : M nat :=
  fun g => (Nat.modulo (g 0%nat) n, fun i => g (S i)).

(** [random.choice(seq)] is [seq[_randbelow(len(seq))]]; every call in
    the sources passes a list of three elements. *)
Definition choice (seq : list str) : M str :=
  bind (randbelow (length seq)) (fun i => ret (nth i seq [])).

End Random.

Declare Scope random_scope.
Delimit Scope random_scope with random.
Notation "x <- c ;; k" := (Random.bind c (fun x => k))
  (at level 100, c at next level, right associativity) : random_scope.

(** ** Data model *)

(** A content block of an article, a dict with keys [type] and [text]. *)
Module Block.
Record t := { type : option str; text : option str }.
End Block.

(** The article dict handed to the pipeline; a key may be missing. *)
Module Article.
Record t := {
  title : option str;
  author : option str;
  summary : option str;
  content : option (list Block.t);
  url : option str
}.
End Article.

(** The script dict built by [generate_script]. *)
Module Script.
Record t := {
  title : str;
  intro : str;
  body : str;
  conclusion : str;
  full_script : str;
  word_count : Z;
  estimated_duration : Z;
  article_url : str
}.
End Script.

(** ** generator/script_generator.py *)
Module ShortScriptGenerator.

Import Py.
Local Open Scope random_scope.

(** The attributes set by [__init__]. *)
Record t := { max_duration : Z; max_words : Z }.

(** The generator the orchestrator builds. *)
Definition default : t := {| max_duration := 60; max_words := 150 |}.

Definition blank_line : str := [newline; newline].

Definition quoted (s : str) : str := [dquote] ++ s ++ [dquote].

Definition intro_templates (title : str) : list str :=
  [ utf8 "Bonjour à tous ! Aujourd'hui, je vous présente un article intéressant intitulé "
      ++ quoted title ++ utf8 ".";
    utf8 "Salut ! Je vais vous parler de " ++ quoted title
      ++ utf8 ", un article qui mérite votre attention.";
    utf8 "Bienvenue ! Dans cette vidéo, je vais vous résumer l'article "
      ++ quoted title ++ utf8 "." ].

Definition _generate_intro (title author : str) : Random.M str :=
  intro <- Random.choice (intro_templates title) ;;
  Random.ret
    (if truthy author && negb (bool_decide (author = utf8 "Auteur inconnu"))
     then intro ++ utf8 " Cet article a été écrit par " ++ author ++ utf8 "."
     else intro).

Definition is_heading (section_type : str) : bool :=
  bool_decide (section_type ∈ [utf8 "H1"; utf8 "H2"; utf8 "H3"; utf8 "H4"]).

Definition is_paragraph (section_type : str) : bool :=
  bool_decide (section_type = utf8 "P").

(** First loop of [_generate_body]: headings and short paragraphs, until
    three key points are held. *)
Fixpoint collect_key_points (content : list Block.t) (key_points : list str)
  : list str :=
  match content with
  | [] => key_points
  | section :: rest =>
      let section_type := upper (get (Block.type section) []) in
      let section_text := get (Block.text section) [] in
      let key_points :=
        if is_heading section_type && truthy section_text
        then key_points ++ [section_text]
        else if is_paragraph section_type
                && (20 <=? len section_text) && (len section_text <=? 200)
             then key_points ++ [section_text]
             else key_points in
      if 3 <=? len key_points then key_points
      else collect_key_points rest key_points
  end.

(** Second loop: the first paragraphs with a text, until two are held. *)
Fixpoint collect_paragraphs (content : list Block.t) (key_points : list str)
  : list str :=
  match content with
  | [] => key_points
  | section :: rest =>
      if is_paragraph (upper (get (Block.type section) []))
         && truthy (get (Block.text section) [])
      then
        let key_points := key_points ++ [get (Block.text section) []] in
        if 2 <=? len key_points then key_points
        else collect_paragraphs rest key_points
      else collect_paragraphs rest key_points
  end.

Definition _generate_body (content : list Block.t) (summary : str) : str :=
  if truthy summary && (20 <? len summary) then summary
  else
    let key_points := collect_key_points content [] in
    let key_points :=
      if truthy key_points then key_points
      else collect_paragraphs content key_points in
    if truthy key_points then
      strip
        (fold_left
           (fun body point =>
              let point :=
                if 100 <? len point
                then slice point None (Some 97) ++ utf8 "..."
                else point in
              body ++ point ++ utf8 " ")
           key_points (utf8 "Voici ce que vous devez retenir : "))
    else
      utf8 "Cet article contient des informations intéressantes que vous pourrez découvrir en lisant l'article complet.".

Definition conclusion_templates (title : str) : list str :=
  [ utf8 "Pour en savoir plus sur " ++ quoted title
      ++ utf8 ", consultez le lien dans la description.";
    utf8 "Si ce sujet vous intéresse, je vous invite à lire l'article complet. Le lien est dans la description.";
    utf8 "Pour un tutoriel détaillé, cliquez sur le lien dans la description pour accéder à l'article complet." ].

Definition engagement_phrases : list str :=
  [ utf8 "N'oubliez pas de liker et de vous abonner pour plus de contenus comme celui-ci !";
    utf8 "Si cette vidéo vous a plu, n'hésitez pas à la partager et à vous abonner !";
    utf8 "Merci d'avoir regardé ! Abonnez-vous pour ne manquer aucun de mes prochains shorts !" ].

Definition _generate_conclusion (title url : str) : Random.M str :=
  conclusion <- Random.choice (conclusion_templates title) ;;
  phrase <- Random.choice engagement_phrases ;;
  Random.ret (conclusion ++ utf8 " " ++ phrase).

(** [parts[0]] and [parts[-1]]; both are in range where they are used,
    under the test [len(parts) >= 3]. *)
Definition first_part (parts : list str) : str := nth 0 parts [].
Definition last_part (parts : list str) : str := List.last parts [].

Definition _adjust_script_length (self : t) (script : str) : str :=
  let words := split script in
  if len words <=? max_words self then script
  else
    let parts := split_sep blank_line script in
    let truncated := join [space] (slice words None (Some (max_words self))) in
    if 3 <=? len parts then
      let intro := first_part parts in
      let conclusion := last_part parts in
      let body_words :=
        split (join [space] (slice parts (Some 1) (Some (-1)))) in
      let max_body_words :=
        max_words self - len (split intro) - len (split conclusion) in
      if 0 <? max_body_words then
        let adjusted_body :=
          join [space] (slice body_words None (Some max_body_words)) in
        intro ++ blank_line ++ adjusted_body ++ blank_line ++ conclusion
      else truncated
    else truncated.

(** [word_count / 2.5] is a division of floating-point numbers in the
    source.  It is taken here on the rationals: for a word count whose
    quotient is below 2^50 the rounded quotient and the exact one have
    the same integer part, since the exact one is a multiple of 1/5. *)
Definition speaking_rate : Q := 5 # 2.

Definition _estimate_duration (self : t) (script : str) : Z :=
  let word_count := len (split script) in
  Z.min (int (inject_Z word_count / speaking_rate)) (max_duration self).

(** [generate_script].  The source wraps the body in [try ... except]
    and returns [None] on an exception; on an article whose fields have
    the types of the data model nothing raises, so the result is the
    script dict. *)
Definition generate_script (self : t) (article_data : Article.t)
  : Random.M Script.t :=
  let title := get (Article.title article_data) (utf8 "Sans titre") in
  let author := get (Article.author article_data) (utf8 "Auteur inconnu") in
  let summary := get (Article.summary article_data) [] in
  let content := get (Article.content article_data) [] in
  let url := get (Article.url article_data) [] in
  intro <- _generate_intro title author ;;
  let body := _generate_body content summary in
  conclusion <- _generate_conclusion title url ;;
  let full_script := intro ++ blank_line ++ body ++ blank_line ++ conclusion in
  let full_script := _adjust_script_length self full_script in
  Random.ret
    {| Script.title := title;
       Script.intro := intro;
       Script.body := body;
       Script.conclusion := conclusion;
       Script.full_script := full_script;
       Script.word_count := len (split full_script);
       Script.estimated_duration := _estimate_duration self full_script;
       Script.article_url := url |}.

(** The intro, body and conclusion of a script dict joined by blank
    lines. *)
Definition joined (r : Script.t) : str :=
  Script.intro r ++ blank_line ++ Script.body r ++ blank_line
    ++ Script.conclusion r.

End ShortScriptGenerator.

(** ** Files, exceptions and external tools *)

(** A raster image as [numpy] holds it: rows of pixels, three channels. *)
Definition pixel := (Z * Z * Z)%type.
Definition frame := list (list pixel).

(** A Python number: an [int], or a [float] of 64 bits with the
    arithmetic of the machine. *)
Inductive number :=
| Int (n : Z)
| Float (x : float).

Inductive content :=
| Text (s : str)
| Video (fourcc : str) (fps : number) (size : Z * Z) (frames : list frame)
| Blob (bytes : list N).

Inductive node :=
| Dir
| File (data : content) (mode : Z).

(** The file system: the nodes by path.  Paths are compared as written
    (no normalisation, no links); the empty path and the paths made of
    slashes only stand for the working directory and the root. *)
Abbreviation fs := (gmap str node).

Inductive exn :=
| ValueError (msg : str)
| FileNotFoundError
| FileExistsError
| NotADirectoryError
| IsADirectoryError
| SameFileError
| PermissionError
| CalledProcessError
| ImportError
| OverflowError
| UnicodeEncodeError
| OtherError.

(** Computations that read and change the file system and may raise. *)
Module IO.

Inductive result (A : Type) :=
| Ok (a : A)
| Raise (e : exn).
Arguments Ok {A} a.
Arguments Raise {A} e.

Definition t (A : Type) : Type := fs -> result A * fs.

Definition ret {A} (a : A) : t A := fun w => (Ok a, w).

Definition raise {A} (e : exn) : t A := fun w => (Raise e, w).

Definition bind {A B} (m : t A) (k : A -> t B) : t B :=
  fun w =>
    match m w with
    | (Ok a, w') => k a w'
    | (Raise e, w') => (Raise e, w')
    end.

(** [try: m  except <handled>: handler] *)
Definition try_except {A} (m : t A) (handled : exn -> bool) (handler : t A)
  : t A :=
  fun w =>
    match m w with
    | (Ok a, w') => (Ok a, w')
    | (Raise e, w') => if handled e then handler w' else (Raise e, w')
    end.

(** [except Exception] *)
Definition any_exception (e : exn) : bool := true.

(** A step that returns or raises without touching the files. *)
Definition lift {A} (r : result A) : t A := fun w => (r, w).

Definition and_then {A B} (r : result A) (k : A -> result B) : result B :=
  match r with
  | Ok a => k a
  | Raise e => Raise e
  end.

End IO.

Declare Scope io_scope.
Delimit Scope io_scope with io.
Notation "x <- c ;; k" := (IO.bind c (fun x => k))
  (at level 100, c at next level, right associativity) : io_scope.
Notation "c ;; k" := (IO.bind c (fun _ => k))
  (at level 100, right associativity) : io_scope.

(** ** Arithmetic on Python numbers *)
Module Number.

(** [float(n)] for [0 <= n]: the nearest float, ties to even.  Beyond
    62 bits the low bits are folded into one sticky bit, which leaves
    the rounding to 53 bits as it is. *)
Definition magnitude (n : Z) : float :=
  let bits := Z.log2 n + 1 in
  if bits <=? 62 then PrimFloat.of_uint63 (Uint63.of_Z n)
  else
    let k := bits - 62 in
    let sticky := if Z.land n (Z.ones k) =? 0 then 0 else 1 in
    Z.ldexp (PrimFloat.of_uint63 (Uint63.of_Z (Z.lor (Z.shiftr n k) sticky))) k.

(** The conversion of an [int] operand in a product with a [float]:
    [OverflowError] when the integer is too large. *)
Definition of_int (n : Z) : IO.result float :=
  let x := magnitude (Z.abs n) in
  if PrimFloat.is_infinity x then IO.Raise OverflowError
  else IO.Ok (if n <? 0 then PrimFloat.opp x else x).

(** [a * b] *)
Definition mul (a b : number) : IO.result number :=
  match a, b with
  | Int m, Int n => IO.Ok (Int (m * n))
  | Int m, Float y =>
      IO.and_then (of_int m) (fun x => IO.Ok (Float (PrimFloat.mul x y)))
  | Float x, Int n =>
      IO.and_then (of_int n) (fun y => IO.Ok (Float (PrimFloat.mul x y)))
  | Float x, Float y => IO.Ok (Float (PrimFloat.mul x y))
  end.

Definition nan_to_integer : str := Py.utf8 "cannot convert float NaN to integer".

(** [int(x)] on a float: the digits before the point; an infinity
    raises [OverflowError] and a NaN [ValueError]. *)
Definition trunc (x : float) : IO.result Z :=
  match Prim2SF x with
  | S754_zero _ => IO.Ok 0
  | S754_finite s m e =>
      let a := if 0 <=? e then Z.pos m * 2 ^ e else Z.shiftr (Z.pos m) (- e) in
      IO.Ok (if s then - a else a)
  | S754_infinity _ => IO.Raise OverflowError
  | S754_nan => IO.Raise (ValueError nan_to_integer)
  end.

(** [int(a)] *)
Definition int (a : number) : IO.result Z :=
  match a with
  | Int n => IO.Ok n
  | Float x => trunc x
  end.

(** The rational that a number stands for; none for the infinities
    and NaN. *)
Definition exact (a : number) : option Q :=
  match a with
  | Int n => Some (inject_Z n)
  | Float x =>
      match Prim2SF x with
      | S754_zero _ => Some 0%Q
      | S754_finite s m e =>
          let n := if s then Z.neg m else Z.pos m in
          Some (if 0 <=? e then inject_Z (n * 2 ^ e)
                else Qmake n (Z.to_pos (2 ^ (- e))))
      | _ => None
      end
  end.

End Number.

(** [os], [os.path] and [shutil]. *)
Module Os.

Import Py.
Local Open Scope io_scope.

(** [(a, b)] with [s = a ++ c :: b] for the last [c] in [s]. *)
Fixpoint rsplit_at (c : codepoint) (s : str) : option (str * str) :=
  match s with
  | [] => None
  | x :: s' =>
      match rsplit_at c s' with
      | Some (a, b) => Some (x :: a, b)
      | None => if (x =? c)%N then Some ([], s') else None
      end
  end.

Definition all_of (c : codepoint) (s : str) : bool :=
  forallb (fun x => (x =? c)%N) s.

Fixpoint lstrip_char (c : codepoint) (s : str) : str :=
  match s with
  | [] => []
  | x :: s' => if (x =? c)%N then lstrip_char c s' else s
  end.

Definition rstrip_char (c : codepoint) (s : str) : str :=
  rev (lstrip_char c (rev s)).

(** [os.path.basename] *)
Definition basename (p : str) : str :=
  match rsplit_at slash p with
  | Some (_, b) => b
  | None => p
  end.

(** [os.path.dirname] *)
Definition dirname (p : str) : str :=
  match rsplit_at slash p with
  | Some (a, _) =>
      let head := a ++ [slash] in
      if all_of slash head then head else rstrip_char slash head
  | None => []
  end.

(** [os.path.splitext]: the extension starts at the last dot of the
    last component, unless only dots precede it there. *)
Definition splitext (p : str) : str * str :=
  let (head, base) :=
    match rsplit_at slash p with
    | Some (a, b) => (a ++ [slash], b)
    | None => ([], p)
    end in
  match rsplit_at dot base with
  | Some (name, ext) =>
      if all_of dot name then (p, []) else (head ++ name, dot :: ext)
  | None => (p, [])
  end.

(** [os.path.join] of two paths. *)
Definition join (a b : str) : str :=
  if startswith [slash] b then b
  else if negb (truthy a) || endswith a [slash] then a ++ b
  else a ++ [slash] ++ b.

(** The proper prefixes of [p] that end before a slash: the
    directories above [p]. *)
Fixpoint ancestors_from (seen p : str) : list str :=
  match p with
  | [] => []
  | c :: p' =>
      (if (c =? slash)%N && truthy seen && negb (endswith seen [slash])
       then [seen] else [])
        ++ ancestors_from (seen ++ [c]) p'
  end.

Definition ancestors (p : str) : list str := ancestors_from [] p.

Definition is_dir (w : fs) (p : str) : bool :=
  negb (truthy p) || all_of slash p
  || match w !! p with Some Dir => true | _ => false end.

Definition is_file (w : fs) (p : str) : bool :=
  match w !! p with Some (File _ _) => true | _ => false end.

(** [os.path.exists] *)
Definition exists_ (p : str) : IO.t bool :=
  fun w => (IO.Ok (bool_decide (is_Some (w !! p))), w).

(** [os.makedirs]: the directory and the missing directories above it. *)
Definition makedirs (p : str) : IO.t unit :=
  fun w =>
    if negb (truthy p) then (IO.Raise FileNotFoundError, w)
    else if bool_decide (is_Some (w !! p)) then (IO.Raise FileExistsError, w)
    else if existsb (is_file w) (ancestors p)
         then (IO.Raise NotADirectoryError, w)
    else (IO.Ok tt,
          <[p := Dir]> (foldr (fun d w' => <[d := Dir]> w') w (ancestors p))).

(** Mode of a file created under the usual mask, 0o644. *)
Definition created_mode : Z := 420.

(** Writing a file at [p]: the directory of [p] has to be there and
    [p] must not be a directory. *)
Definition put (p : str) (data : content) (mode : option Z) : IO.t unit :=
  fun w =>
    if negb (is_dir w (dirname p)) then (IO.Raise FileNotFoundError, w)
    else match w !! p with
         | Some Dir => (IO.Raise IsADirectoryError, w)
         | Some (File _ old) =>
             (IO.Ok tt, <[p := File data (from_option id old mode)]> w)
         | None =>
             (IO.Ok tt, <[p := File data (from_option id created_mode mode)]> w)
         end.

(** [with open(p, 'w', encoding='utf-8') as f: f.write(...)] *)
Definition write_text (p : str) (text : str) : IO.t unit :=
  put p (Text text) None.

(** [with open(p, 'w') as f:] and one [f.write] for each of [texts],
    in the encoding of the locale.  The file is created or emptied when
    it is opened; a text with a character that the encoding lacks
    raises, and the file keeps the texts written before it. *)
Fixpoint encoded_prefix (encodable : codepoint -> bool) (texts : list str)
  : list str :=
  match texts with
  | [] => []
  | t :: rest =>
      if forallb encodable t then t :: encoded_prefix encodable rest else []
  end.

Definition write_texts (encodable : codepoint -> bool) (p : str)
    (texts : list str) : IO.t unit :=
  put p (Text (concat (encoded_prefix encodable texts))) None ;;
  if forallb (forallb encodable) texts then IO.ret tt
  else IO.raise UnicodeEncodeError.

(** [shutil.copy2]: data and mode; into [dst] when [dst] is a directory. *)
Definition copy2 (src dst : str) : IO.t unit :=
  fun w =>
    match w !! src with
    | None => (IO.Raise FileNotFoundError, w)
    | Some Dir => (IO.Raise IsADirectoryError, w)
    | Some (File data mode) =>
        let dst :=
          match w !! dst with
          | Some Dir => join dst (basename src)
          | _ => dst
          end in
        if bool_decide (src = dst) then (IO.Raise SameFileError, w)
        else put dst data (Some mode) w
    end.

(** [os.chmod] *)
Definition chmod (p : str) (mode : Z) : IO.t unit :=
  fun w =>
    match w !! p with
    | None => (IO.Raise FileNotFoundError, w)
    | Some Dir => (IO.Ok tt, w)
    | Some (File data _) => (IO.Ok tt, <[p := File data mode]> w)
    end.

(** [os.replace] of a file. *)
Definition replace (src dst : str) : IO.t unit :=
  fun w =>
    match w !! src, w !! dst with
    | None, _ => (IO.Raise FileNotFoundError, w)
    | Some Dir, _ => (IO.Raise IsADirectoryError, w)
    | Some (File _ _), Some Dir => (IO.Raise IsADirectoryError, w)
    | Some (File data mode), _ =>
        (IO.Ok tt, <[dst := File data mode]> (delete src w))
    end.

(** The names in directory [d]: the single components [n] for which
    [join d n] is there. *)
Definition name (n : str) : bool :=
  truthy n && negb (existsb (fun c => (c =? slash)%N) n).

Definition entry (w : fs) (d n : str) : bool :=
  name n && bool_decide (is_Some (w !! join d n)).

(** A path that is not empty and does not end with a slash. *)
Definition open_ended (d : str) : bool :=
  truthy d && negb (endswith d [slash]).

(** Every entry of a named directory lies in a directory that is
    there. *)
Definition well_formed (w : fs) : Prop :=
  forall d n,
    open_ended d = true -> name n = true -> is_Some (w !! join d n) ->
    is_dir w d = true.

(** The same, checked path by path. *)
Definition well_formedb (w : fs) : bool :=
  forallb
    (fun k =>
       match rsplit_at slash k with
       | Some (d, n) => negb (open_ended d && name n) || is_dir w d
       | None => true
       end)
    (List.map fst (map_to_list w)).

End Os.

(** The programs and libraries outside the repository.
    [subprocess_run argv] is [subprocess.run(argv, check=True, ...)]: it
    raises [FileNotFoundError] when the program is missing and
    [CalledProcessError] when it exits with an error.  [moviepy] is
    [None] when the import raises [ImportError]. *)
Module Tools.

Record video_clip := {
  video_source : str;
  video_duration : Q;
  video_audio : option (str * Q)
}.

Record audio_clip := { audio_source : str; audio_duration : Q }.

Record moviepy := {
  VideoFileClip : str -> IO.t video_clip;
  AudioFileClip : str -> IO.t audio_clip;
  write_videofile : video_clip -> str -> str -> str -> IO.t unit
}.

Record t := {
  subprocess_run : list str -> IO.t unit;
  moviepy_editor : option moviepy;
  (** whether the encoding of the locale, which [open] takes when none
      is given, has the character *)
  locale_encodes : codepoint -> bool
}.

(** Two encodings: UTF-8, which has every character but the
    surrogates, and ASCII. *)
Definition utf8_encodes (c : codepoint) : bool :=
  negb ((55296 <=? c) && (c <=? 57343))%N.

Definition ascii_encodes (c : codepoint) : bool := (c <? 128)%N.

(** [clip.subclip(0, t_end)] and [clip.set_audio(audio)]. *)
Definition subclip (clip : video_clip) (t_end : Q) : video_clip :=
  {| video_source := video_source clip;
     video_duration := t_end;
     video_audio := video_audio clip |}.

Definition set_audio (clip : video_clip) (audio : audio_clip) : video_clip :=
  {| video_source := video_source clip;
     video_duration := video_duration clip;
     video_audio := Some (audio_source audio, audio_duration audio) |}.

End Tools.

(** What [str.lower] and the class [\w] of [re] take from the Unicode
    tables: they are left open. *)
Module Unicode.
Record t := {
  (** [c.isalnum()] *)
  isalnum : codepoint -> bool;
  (** [s.lower()] *)
  lower : str -> str
}.
End Unicode.

(** ** generator/video_generator.py *)

(** What the renderer takes from PIL, [textwrap] and [numpy]. *)
Module Imaging.

Definition rgb := (Z * Z * Z)%type.

Inductive font :=
| TrueType (path : str) (size : Z)
| DefaultFont.

(** One [draw.text] call. *)
Record text_op := {
  xy : Z * Z;
  text : str;
  text_font : font;
  fill : rgb
}.

(** An [Image.new('RGB', size, color)] and the texts drawn on it. *)
Record image := {
  size : Z * Z;
  color : rgb;
  texts : list text_op
}.

Record t := {
  (** whether [ImageFont.truetype(path, size)] loads the font *)
  truetype_loads : str -> bool;
  (** [textwrap.fill(text, width)] *)
  textwrap_fill : str -> Z -> str;
  (** [draw.textbbox((0, 0), text, font)]: left, top, right, bottom *)
  textbbox : str -> font -> Z * Z * Z * Z;
  (** [np.array(img)] *)
  np_array : image -> frame
}.

Definition new (size : Z * Z) (color : rgb) : image :=
  {| size := size; color := color; texts := [] |}.

Definition draw_text (img : image) (xy : Z * Z) (text : str) (f : font)
    (fill : rgb) : image :=
  {| size := size img; color := color img;
     texts := texts img
              ++ [ {| xy := xy; text := text; text_font := f; fill := fill |} ] |}.

End Imaging.

Module ShortVideoGenerator.

Import Py.
Local Open Scope io_scope.

(** The attributes set by [__init__]. *)
Record t := {
  output_dir : option str;
  font_path : str;
  background_color : Imaging.rgb;
  text_color : Imaging.rgb;
  width : Z;
  height : Z;
  fps : number
}.

Section Rendering.

Variable lib : Imaging.t.
Variable self : t.

(** The three fonts: those of [font_path], or the built-in one for
    all three when loading raises. *)
Definition fonts : Imaging.font * Imaging.font * Imaging.font :=
  if Imaging.truetype_loads lib (font_path self)
  then (Imaging.TrueType (font_path self) 60,
        Imaging.TrueType (font_path self) 48,
        Imaging.TrueType (font_path self) 36)
  else (Imaging.DefaultFont, Imaging.DefaultFont, Imaging.DefaultFont).

Definition url_text : str := utf8 "Lien dans la description".

(** The image [_create_text_frames] draws before it repeats it. *)
Definition draw_image (text title : str) (include_url : bool) (url : str)
  : Imaging.image :=
  let img := Imaging.new (width self, height self) (background_color self) in
  let '(title_font, text_font, url_font) := fonts in
  let '(img, text_y) :=
    if truthy title then
      let wrapped_title := Imaging.textwrap_fill lib title 30 in
      let '(x0, y0, x1, y1) :=
        Imaging.textbbox lib wrapped_title title_font in
      let title_width := x1 - x0 in
      let title_height := y1 - y0 in
      (Imaging.draw_text img ((width self - title_width) / 2, 100)
         wrapped_title title_font (text_color self),
       100 + title_height + 50)
    else (img, 200) in
  let wrapped_text := Imaging.textwrap_fill lib text 40 in
  let '(x0, y0, x1, y1) :=
    Imaging.textbbox lib wrapped_text text_font in
  let text_width := x1 - x0 in
  let img :=
    Imaging.draw_text img ((width self - text_width) / 2, text_y)
      wrapped_text text_font (text_color self) in
  if include_url && truthy url then
    let '(x0, y0, x1, y1) :=
      Imaging.textbbox lib url_text url_font in
    let url_width := x1 - x0 in
    Imaging.draw_text img ((width self - url_width) / 2, height self - 200)
      url_text url_font (text_color self)
  else img.

(** [int(duration * self.fps)] *)
Definition num_frames (duration : number) : IO.result Z :=
  IO.and_then (Number.mul duration (fps self)) Number.int.

(** [duration] and [fps] are numbers, integers or floats.  The number
    of frames is computed first; a list times a number that is not
    positive is the empty list. *)
Definition _create_text_frames (text : str) (duration : number) (title : str)
    (include_url : bool) (url : str) : IO.result (list frame) :=
  IO.and_then (num_frames duration) (fun num_frames =>
  let img_array := Imaging.np_array lib (draw_image text title include_url url) in
  IO.Ok (replicate (Z.to_nat num_frames) img_array)).

(** The duration handed to the renderer for the body. *)
Definition body_duration (script_data : Script.t) : Z :=
  Script.estimated_duration script_data - 10.

(** The list [frames] that [generate_video] builds, one segment after
    the other.  Every key of the script dict is present, so no default
    of [get] is used. *)
Definition video_frames (script_data : Script.t) : IO.result (list frame) :=
  IO.and_then
    (_create_text_frames (Script.intro script_data) (Int 5)
       (Script.title script_data) false [])
    (fun intro_frames =>
  IO.and_then
    (_create_text_frames (Script.body script_data)
       (Int (body_duration script_data)) [] false [])
    (fun body_frames =>
  IO.and_then
    (_create_text_frames (Script.conclusion script_data) (Int 5) [] true
       (Script.article_url script_data))
    (fun conclusion_frames =>
  IO.Ok (intro_frames ++ body_frames ++ conclusion_frames)))).

(** [cv2.cvtColor(frame, cv2.COLOR_RGB2BGR)] *)
Definition rgb2bgr (f : frame) : frame :=
  List.map (List.map (fun '(r, g, b) => (b, g, r))) f.

Definition no_frames : str := utf8 "Aucune image à inclure dans la vidéo".

Definition ffmpeg_optimize (output_path temp_output : str) : list str :=
  [ utf8 "ffmpeg"; utf8 "-y"; utf8 "-i"; output_path;
    utf8 "-c:v"; utf8 "libx264"; utf8 "-preset"; utf8 "medium";
    utf8 "-crf"; utf8 "23"; utf8 "-c:a"; utf8 "aac"; utf8 "-b:a";
    utf8 "128k"; temp_output ].

Variable tools : Tools.t.

(** [cv2.VideoWriter(...)], the calls of [write] and [release]: the
    file holds the frames written.  The writer does not raise when
    it cannot open the file; nothing is stored then. *)
Definition video_writer (output_path : str) (frames : list frame)
  : IO.t unit :=
  IO.try_except
    (Os.put output_path
       (Video (utf8 "mp4v") (fps self) (width self, height self) frames)
       None)
    IO.any_exception
    (IO.ret tt).

(** The re-encoding through ffmpeg; any failure leaves the file as
    the writer made it. *)
Definition ffmpeg_pass (output_path : str) : IO.t unit :=
  IO.try_except
    (let temp_output := output_path ++ utf8 ".temp.mp4" in
     Tools.subprocess_run tools (ffmpeg_optimize output_path temp_output) ;;
     Os.replace temp_output output_path)
    IO.any_exception
    (IO.ret tt).

Definition _create_video_from_frames (frames : list frame)
    (output_path : str) : IO.t unit :=
  if negb (truthy frames) then IO.raise (ValueError no_frames)
  else
    video_writer output_path (List.map rgb2bgr frames) ;;
    ffmpeg_pass output_path.

Variable u : Unicode.t.

Definition generate_video (script_data : Script.t)
    (output_filename : option str) : IO.t (option str) :=
  IO.try_except
    (let output_filename :=
       if truthy (get output_filename []) then get output_filename []
       else replace space 45%N (Unicode.lower u (Script.title script_data)) in
     let output_filename :=
       if negb (endswith output_filename (utf8 ".mp4"))
       then output_filename ++ utf8 ".mp4" else output_filename in
     let output_path :=
       if truthy (get (output_dir self) [])
       then Os.join (get (output_dir self) []) output_filename
       else output_filename in
     frames <- IO.lift (video_frames script_data) ;;
     _create_video_from_frames frames output_path ;;
     IO.ret (Some output_path))
    IO.any_exception
    (IO.ret None).

End Rendering.

End ShortVideoGenerator.

(** ** voice_avatar/alternative_integrator.py and
       voice_avatar/voice_video_integrator.py *)

(** What the two integrators share: the output path, the commands, and
    the test for ffmpeg. *)
Module Integration.

Import Py.
Local Open Scope io_scope.

Definition output_path (output_dir : option str) (video_path : str)
    (output_filename : option str) : str :=
  let output_filename :=
    if truthy (get output_filename []) then get output_filename []
    else
      let video_name := fst (Os.splitext (Os.basename video_path)) in
      video_name ++ utf8 "-with-voice.mp4" in
  let output_filename :=
    if negb (endswith output_filename (utf8 ".mp4"))
    then output_filename ++ utf8 ".mp4" else output_filename in
  if truthy (get output_dir [])
  then Os.join (get output_dir []) output_filename
  else output_filename.

Definition ffmpeg_version : list str := [utf8 "ffmpeg"; utf8 "-version"].

Definition ffmpeg_mux (video_path audio_path output_path : str) : list str :=
  [ utf8 "ffmpeg"; utf8 "-y"; utf8 "-i"; video_path; utf8 "-i"; audio_path;
    utf8 "-c:v"; utf8 "copy"; utf8 "-c:a"; utf8 "aac";
    utf8 "-map"; utf8 "0:v:0"; utf8 "-map"; utf8 "1:a:0";
    utf8 "-shortest"; output_path ].

(** [except (subprocess.SubprocessError, FileNotFoundError)] *)
Definition subprocess_or_not_found (e : exn) : bool :=
  match e with
  | CalledProcessError | FileNotFoundError => true
  | _ => false
  end.

Definition ffmpeg_available (tools : Tools.t) : IO.t bool :=
  IO.try_except
    (Tools.subprocess_run tools ffmpeg_version ;; IO.ret true)
    subprocess_or_not_found
    (IO.ret false).

End Integration.

Module AlternativeIntegrator.

Import Py.
Local Open Scope io_scope.

Record t := { output_dir : option str }.

(** A text that ends its line, and one followed by an empty line. *)
Definition line (s : string) : str := utf8 s ++ [newline].
Definition paragraph (s : string) : str := utf8 s ++ [newline; newline].

(** The texts of the calls of [f.write], one by one. *)
Definition combine_sh_texts : list str :=
  [ paragraph "#!/bin/bash";
    line "# Script pour combiner la vidéo et l'audio";
    paragraph "# Nécessite ffmpeg";
    line "ffmpeg -y -i video.mp4 -i audio.mp3 -c:v copy -c:a aac -map 0:v:0 -map 1:a:0 -shortest combined.mp4" ].

Definition readme_texts : list str :=
  [ paragraph "INSTRUCTIONS POUR COMBINER LA VIDÉO ET L'AUDIO";
    line "Option 1: Utiliser le script shell (nécessite ffmpeg)";
    line "1. Ouvrez un terminal dans ce répertoire";
    paragraph "2. Exécutez ./combine.sh";
    line "Option 2: Utilisation manuelle";
    line "1. Ouvrez la vidéo (video.mp4) dans votre lecteur vidéo";
    paragraph "2. Lancez l'audio (audio.mp3) en même temps";
    line "Option 3: Utiliser un outil en ligne";
    line "1. Utilisez un service en ligne comme https://www.kapwing.com/studio/editor";
    line "2. Importez la vidéo et l'audio";
    line "3. Exportez la vidéo combinée" ].

Definition combine_sh : str := concat combine_sh_texts.
Definition readme : str := concat readme_texts.

Definition video_name : str := utf8 "video.mp4".
Definition audio_name : str := utf8 "audio.mp3".
Definition script_name : str := utf8 "combine.sh".
Definition readme_name : str := utf8 "README.txt".

(** The branch taken without ffmpeg: a directory with both files, a
    shell script and the instructions. *)
Definition bundle (encodable : codepoint -> bool)
    (video_path audio_path output_dir : str) : IO.t unit :=
  there <- Os.exists_ output_dir ;;
  (if negb there then Os.makedirs output_dir else IO.ret tt) ;;
  let video_dest := Os.join output_dir video_name in
  let audio_dest := Os.join output_dir audio_name in
  Os.copy2 video_path video_dest ;;
  Os.copy2 audio_path audio_dest ;;
  let script_path := Os.join output_dir script_name in
  Os.write_texts encodable script_path combine_sh_texts ;;
  Os.chmod script_path 493 ;;
  let readme_path := Os.join output_dir readme_name in
  Os.write_texts encodable readme_path readme_texts.

Definition integrate (tools : Tools.t) (self : t)
    (video_path audio_path : str) (output_filename : option str)
  : IO.t (option str) :=
  IO.try_except
    (let output_path :=
       Integration.output_path (output_dir self) video_path output_filename in
     ffmpeg_available <- Integration.ffmpeg_available tools ;;
     if ffmpeg_available : bool then
       Tools.subprocess_run tools
         (Integration.ffmpeg_mux video_path audio_path output_path) ;;
       IO.ret (Some output_path)
     else
       let output_dir := fst (Os.splitext output_path) in
       bundle (Tools.locale_encodes tools) video_path audio_path output_dir ;;
       IO.ret (Some output_dir))
    IO.any_exception
    (IO.ret None).

(** Whether the locale can encode the script and the instructions. *)
Definition encodable_texts (encodable : codepoint -> bool) : bool :=
  forallb (forallb encodable) (combine_sh_texts ++ readme_texts).

(** The directory [integrate] returns without ffmpeg. *)
Definition bundle_dir (self : t) (video_path : str)
    (output_filename : option str) : str :=
  fst (Os.splitext
         (Integration.output_path (output_dir self) video_path output_filename)).

(** The file system after a bundle was made in a new directory [d]
    from the files [video] and [audio]. *)
Definition made_dirs (w : fs) (d : str) : fs :=
  <[d := Dir]> (foldr (fun a w' => <[a := Dir]> w') w (Os.ancestors d)).

Definition bundled (w : fs) (d : str) (video audio : node) : fs :=
  <[Os.join d readme_name := File (Text readme) Os.created_mode]>
    (<[Os.join d script_name := File (Text combine_sh) 493]>
       (<[Os.join d audio_name := audio]>
          (<[Os.join d video_name := video]> (made_dirs w d)))).

End AlternativeIntegrator.

Module VoiceVideoIntegrator.

Import Py.
Local Open Scope io_scope.

Record t := { output_dir : option str }.

Definition import_error (e : exn) : bool :=
  match e with ImportError => true | _ => false end.

Definition integrate (tools : Tools.t) (self : t)
    (video_path audio_path : str) (output_filename : option str)
  : IO.t (option str) :=
  IO.try_except
    (let output_path :=
       Integration.output_path (output_dir self) video_path output_filename in
     ffmpeg_available <- Integration.ffmpeg_available tools ;;
     if ffmpeg_available : bool then
       Tools.subprocess_run tools
         (Integration.ffmpeg_mux video_path audio_path output_path) ;;
       IO.ret (Some output_path)
     else
       IO.try_except
         (match Tools.moviepy_editor tools with
          | None => IO.raise ImportError
          | Some moviepy =>
              video_clip <- Tools.VideoFileClip moviepy video_path ;;
              audio_clip <- Tools.AudioFileClip moviepy audio_path ;;
              let video_clip :=
                if negb (Qle_bool (Tools.video_duration video_clip)
                           (Tools.audio_duration audio_clip))
                then Tools.subclip video_clip (Tools.audio_duration audio_clip)
                else video_clip in
              let final_clip := Tools.set_audio video_clip audio_clip in
              Tools.write_videofile moviepy final_clip output_path
                (utf8 "libx264") (utf8 "aac") ;;
              IO.ret (Some output_path)
          end)
         import_error
         (IO.ret None))
    IO.any_exception
    (IO.ret None).

End VoiceVideoIntegrator.

(** ** Sample inputs *)
Module Sample.

Import Py ShortScriptGenerator.

(** A generator whose word budget is negative. *)
Definition negative_budget : ShortScriptGenerator.t :=
  {| max_duration := 60; max_words := -1 |}.

(** A generator whose maximal duration is negative, as the command line
    option [--duration -1] builds it. *)
Definition negative_duration : ShortScriptGenerator.t :=
  {| max_duration := -1; max_words := 150 |}.

Definition four_words : ShortScriptGenerator.t :=
  {| max_duration := 60; max_words := 4 |}.

Definition two_words : ShortScriptGenerator.t :=
  {| max_duration := 60; max_words := 2 |}.

Definition abc : str := utf8 "a b c".

Definition three_letters : str :=
  utf8 "a" ++ blank_line ++ utf8 "b" ++ blank_line ++ utf8 "c".

Definition seven_words : str :=
  utf8 "a b" ++ blank_line ++ utf8 "c  d e f" ++ blank_line ++ utf8 " g".

(** ["mot " * 200] *)
Definition long_summary : str := concat (replicate 200 (utf8 "mot ")).

Definition long_article : Article.t :=
  {| Article.title := Some (utf8 "Rocq");
     Article.author := Some (utf8 "Ada");
     Article.summary := Some long_summary;
     Article.content := Some [];
     Article.url := Some (utf8 "https://example.org/rocq") |}.

Definition short_article : Article.t :=
  {| Article.title := Some (utf8 "Rocq");
     Article.author := None;
     Article.summary := None;
     Article.content :=
       Some [ {| Block.type := Some (utf8 "h2");
                 Block.text := Some (utf8 "Un titre") |} ];
     Article.url := Some (utf8 "https://example.org/rocq") |}.

(** The generator built by the option [--duration 8]. *)
Definition eight_seconds : ShortScriptGenerator.t :=
  {| max_duration := 8; max_words := 150 |}.


(** A stand-in for the imaging libraries: the built-in font only, no
    wrapping, every character ten units wide, and a picture of one
    pixel in the background colour. *)
Definition imaging : Imaging.t :=
  {| Imaging.truetype_loads := fun _ => false;
     Imaging.textwrap_fill := fun text _ => text;
     Imaging.textbbox := fun text _ => (0, 0, 10 * len text, 12);
     Imaging.np_array := fun img => [[Imaging.color img]] |}.

(** The video generator with the defaults of [__init__]. *)
Definition video_generator : ShortVideoGenerator.t :=
  {| ShortVideoGenerator.output_dir := Some (utf8 "out/videos");
     ShortVideoGenerator.font_path :=
       utf8 "/usr/share/fonts/truetype/dejavu/DejaVuSans-Bold.ttf";
     ShortVideoGenerator.background_color := (25, 25, 112);
     ShortVideoGenerator.text_color := (255, 255, 255);
     ShortVideoGenerator.width := 1080;
     ShortVideoGenerator.height := 1920;
     ShortVideoGenerator.fps := Int 30 |}.

(** A machine without ffmpeg and without moviepy. *)
Definition no_tools : Tools.t :=
  {| Tools.subprocess_run := fun _ => IO.raise FileNotFoundError;
     Tools.moviepy_editor := None;
     Tools.locale_encodes := Tools.utf8_encodes |}.

(** A machine with a working ffmpeg: the mux command stores a file at
    its last argument. *)
Definition with_ffmpeg : Tools.t :=
  {| Tools.subprocess_run := fun argv w =>
       (IO.Ok tt,
        if bool_decide (argv = Integration.ffmpeg_version) then w
        else <[List.last argv [] := File (Blob [0%N]) Os.created_mode]> w);
     Tools.moviepy_editor := None;
     Tools.locale_encodes := Tools.utf8_encodes |}.

(** The same machine under an ASCII locale. *)
Definition ascii_machine : Tools.t :=
  {| Tools.subprocess_run := fun _ => IO.raise FileNotFoundError;
     Tools.moviepy_editor := None;
     Tools.locale_encodes := Tools.ascii_encodes |}.

Definition integrator : AlternativeIntegrator.t :=
  {| AlternativeIntegrator.output_dir := None |}.

(** The integrator of a pipeline that works in [out]. *)
Definition final_integrator : AlternativeIntegrator.t :=
  {| AlternativeIntegrator.output_dir := Some (utf8 "out/final") |}.

Definition voice_video_integrator : VoiceVideoIntegrator.t :=
  {| VoiceVideoIntegrator.output_dir := None |}.

Definition clip : node := File (Blob [1%N; 2%N]) Os.created_mode.
Definition voice : node := File (Blob [3%N]) Os.created_mode.

(** The video and the audio of a run, in the working directory. *)
Definition media : fs :=
  <[utf8 "clip.mp4" := clip]> (<[utf8 "voice.mp3" := voice]> ∅).

(** The video and the audio of a run of the pipeline in [out]. *)
Definition project : fs :=
  <[utf8 "out/videos/clip.mp4" := clip]>
    (<[utf8 "out/audio/voice.mp3" := voice]>
       (<[utf8 "out/videos" := Dir]>
          (<[utf8 "out/audio" := Dir]>
             (<[utf8 "out/final" := Dir]> (<[utf8 "out" := Dir]> ∅))))).

(** The same after an earlier run left a bundle that was combined by
    hand. *)
Definition media_after_run : fs :=
  <[utf8 "clip-with-voice/combined.mp4" := clip]>
    (<[utf8 "clip-with-voice" := Dir]> media).

(** Three generator states: constant draws, and the draws
    0, 0, 0, 1, 1, 1, 2, ... *)
Definition zeros : Random.state := fun _ => 0%nat.
Definition ones : Random.state := fun _ => 1%nat.
Definition stepping : Random.state := fun i => Nat.div i 3.

End Sample.

(** The script records used in the examples. *)
Module Records.

Import ShortScriptGenerator.

Definition brief : Script.t :=
  fst (generate_script Sample.eight_seconds Sample.short_article Sample.zeros).


End Records.

(** ** The other functions of the pipeline *)

(** [save_script] of generator/script_generator.py. *)
Module ScriptFile.

Import Py.
Local Open Scope io_scope.

Definition hyphen : codepoint := 45%N.
Definition underscore : codepoint := 95%N.

(** [re.sub(r'[^\w\s-]', '', s)] *)
Definition drop_punctuation (u : Unicode.t) (s : str) : str :=
  List.filter
    (fun c => Unicode.isalnum u c || (c =? underscore)%N || isspace c
              || (c =? hyphen)%N) s.

(** [re.sub(r'[-\s]+', '-', s)]: every maximal run of hyphens and
    whitespace becomes one hyphen.  [in_run] tells that the character
    before was in such a run. *)
Fixpoint hyphenate_from (in_run : bool) (s : str) : str :=
  match s with
  | [] => []
  | c :: s' =>
      if (c =? hyphen)%N || isspace c
      then if in_run then hyphenate_from true s'
           else hyphen :: hyphenate_from true s'
      else c :: hyphenate_from false s'
  end.

Definition hyphenate (s : str) : str := hyphenate_from false s.

(** The name of the file, from the title. *)
Definition slug (u : Unicode.t) (title : str) : str :=
  let filename := Unicode.lower u (strip (drop_punctuation u title)) in
  hyphenate filename.

(** [os.makedirs(p, exist_ok=True)] *)
Definition makedirs_exist_ok (p : str) : IO.t unit :=
  fun w =>
    if truthy p && Os.is_dir w p then (IO.Ok tt, w) else Os.makedirs p w.

(** [json_dumps] stands for [json.dump(script_data, f, ensure_ascii=False,
    indent=2)].  Nothing is caught here: an exception goes to the
    caller. *)
Definition save_script (u : Unicode.t) (json_dumps : Script.t -> str)
    (script_data : Script.t) (output_dir : option str) : IO.t (option str) :=
  if negb (truthy (get output_dir [])) then IO.ret None
  else
    let output_dir := get output_dir [] in
    makedirs_exist_ok output_dir ;;
    let filename := slug u (Script.title script_data) in
    let json_path := Os.join output_dir (filename ++ utf8 "-script.json") in
    Os.write_text json_path (json_dumps script_data) ;;
    IO.ret (Some json_path).

(** No two hyphens side by side. *)
Fixpoint single_hyphens (s : str) : bool :=
  match s with
  | [] => true
  | c :: s' =>
      match s' with
      | [] => true
      | d :: _ => negb ((c =? hyphen)%N && (d =? hyphen)%N) && single_hyphens s'
      end
  end.

(** A text that does not begin with a hyphen. *)
Definition starts_without_hyphen (s : str) : Prop :=
  match s with
  | [] => True
  | c :: _ => c <> hyphen
  end.

End ScriptFile.

(** voice_avatar/voice_generator.py *)
Module VoiceGenerator.

Import Py.
Local Open Scope io_scope.

Record t := { output_dir : option str; language : str; slow : bool }.

(** [gTTS(text=..., lang=..., slow=...).save(path)], outside the
    repository. *)
Definition speech : Type := str -> str -> bool -> str -> IO.t unit.

(** The text handed to the synthesis: [full_script], or the three
    sections joined when [full_script] is empty. *)
Definition narration (script_data : Script.t) : str :=
  let full_script := Script.full_script script_data in
  if negb (truthy full_script)
  then Script.intro script_data ++ [newline; newline]
         ++ Script.body script_data ++ [newline; newline]
         ++ Script.conclusion script_data
  else full_script.

Definition generate_audio (u : Unicode.t) (gtts_save : speech) (self : t)
    (script_data : Script.t) (output_filename : option str)
  : IO.t (option str) :=
  IO.try_except
    (let output_filename :=
       if truthy (get output_filename []) then get output_filename []
       else replace space 45%N (Unicode.lower u (Script.title script_data)) in
     let output_filename :=
       if negb (endswith output_filename (utf8 ".mp3"))
       then output_filename ++ utf8 ".mp3" else output_filename in
     let output_path :=
       if truthy (get (output_dir self) [])
       then Os.join (get (output_dir self) []) output_filename
       else output_filename in
     gtts_save (narration script_data) (language self) (slow self) output_path ;;
     IO.ret (Some output_path))
    IO.any_exception
    (IO.ret None).

End VoiceGenerator.

(** voice_avatar/simple_integrator.py: moviepy is imported with the
    module, so it is there. *)
Module SimpleVoiceVideoIntegrator.

Import Py.
Local Open Scope io_scope.

Record t := { output_dir : option str }.

Definition integrate (moviepy : Tools.moviepy) (self : t)
    (video_path audio_path : str) (output_filename : option str)
  : IO.t (option str) :=
  IO.try_except
    (let output_path :=
       Integration.output_path (output_dir self) video_path output_filename in
     video_clip <- Tools.VideoFileClip moviepy video_path ;;
     audio_clip <- Tools.AudioFileClip moviepy audio_path ;;
     let video_clip :=
       if negb (Qle_bool (Tools.video_duration video_clip)
                  (Tools.audio_duration audio_clip))
       then Tools.subclip video_clip (Tools.audio_duration audio_clip)
       else video_clip in
     let final_clip := Tools.set_audio video_clip audio_clip in
     Tools.write_videofile moviepy final_clip output_path
       (utf8 "libx264") (utf8 "aac") ;;
     IO.ret (Some output_path))
    IO.any_exception
    (IO.ret None).

End SimpleVoiceVideoIntegrator.

(** shorts_generator.py: the pipeline from an article to the final
    video. *)
Module ShortsGenerator.

Import Py.
Local Open Scope io_scope.

(** The attributes set by [__init__]: the four directories, all given
    or all missing, the language, and the font that the video generator
    settled on. *)
Record t := {
  scripts_dir : option str;
  videos_dir : option str;
  audio_dir : option str;
  final_dir : option str;
  language : str;
  font_path : str
}.

(** The components built by [__init__]. *)
Definition script_generator : ShortScriptGenerator.t :=
  {| ShortScriptGenerator.max_duration := 60;
     ShortScriptGenerator.max_words := 150 |}.

Definition video_generator (self : t) : ShortVideoGenerator.t :=
  {| ShortVideoGenerator.output_dir := videos_dir self;
     ShortVideoGenerator.font_path := font_path self;
     ShortVideoGenerator.background_color := (25, 25, 112);
     ShortVideoGenerator.text_color := (255, 255, 255);
     ShortVideoGenerator.width := 1080;
     ShortVideoGenerator.height := 1920;
     ShortVideoGenerator.fps := Int 30 |}.

Definition voice_generator (self : t) : VoiceGenerator.t :=
  {| VoiceGenerator.output_dir := audio_dir self;
     VoiceGenerator.language := language self;
     VoiceGenerator.slow := false |}.

Definition integrator (self : t) : AlternativeIntegrator.t :=
  {| AlternativeIntegrator.output_dir := final_dir self |}.

(** [generate_from_article].  The script is a dict with all its keys,
    so the test [if not script_data] never fires; the state of the
    random generator after the script is not used again. *)
Definition generate_from_article (lib : Imaging.t) (tools : Tools.t)
    (u : Unicode.t) (json_dumps : Script.t -> str)
    (gtts_save : VoiceGenerator.speech) (self : t) (article_data : Article.t)
    (g : Random.state) : IO.t (option str) :=
  IO.try_except
    (let script_data :=
       fst (ShortScriptGenerator.generate_script script_generator
              article_data g) in
     (if truthy (get (scripts_dir self) [])
      then ScriptFile.save_script u json_dumps script_data (scripts_dir self) ;;
           IO.ret tt
      else IO.ret tt) ;;
     video_path <-
       ShortVideoGenerator.generate_video lib (video_generator self) tools u
         script_data None ;;
     if negb (truthy (get video_path [])) then IO.ret None
     else
       audio_path <-
         VoiceGenerator.generate_audio u gtts_save (voice_generator self)
           script_data None ;;
       if negb (truthy (get audio_path [])) then IO.ret None
       else
         final_path <-
           AlternativeIntegrator.integrate tools (integrator self)
             (get video_path []) (get audio_path []) None ;;
         if negb (truthy (get final_path [])) then IO.ret None
         else IO.ret final_path)
    IO.any_exception
    (IO.ret None).

(** The two shapes of a final path. *)
Definition final_name (p : str) : bool :=
  endswith p (utf8 "-with-voice.mp4") || endswith p (utf8 "-with-voice").

(** A speech synthesis that refuses a text without words or with more
    than 150 of them. *)
Definition within_budget (text : str) : bool :=
  (1 <=? len (split text)) && (len (split text) <=? 150).

Definition checked (gtts_save : VoiceGenerator.speech)
  : VoiceGenerator.speech :=
  fun text language slow path =>
    if within_budget text then gtts_save text language slow path
    else IO.raise (ValueError text).

(** What a computation returns when it does not raise. *)
Definition returns {A} (P : A -> Prop) (m : IO.t A) : Prop :=
  forall w,
    match fst (m w) with
    | IO.Ok a => P a
    | IO.Raise _ => True
    end.

End ShortsGenerator.

(** More sample inputs. *)
Module More.

Import Py ShortScriptGenerator.

(** The texts of [_generate_body]: the announcement of the key points
    (without its final space), the sentence for an article without
    usable content, and one turn of the loop that appends the points. *)
Definition announcement : str := utf8 "Voici ce que vous devez retenir :".

Definition no_content : str :=
  utf8 "Cet article contient des informations intéressantes que vous pourrez découvrir en lisant l'article complet.".

Definition add_point (body point : str) : str :=
  let point :=
    if 100 <? len point
    then slice point None (Some 97) ++ utf8 "..."
    else point in
  body ++ point ++ utf8 " ".

(** A machine whose ffmpeg stores its result at the last argument of
    the command. *)
Definition encoder : Tools.t :=
  {| Tools.subprocess_run := fun argv w =>
       (IO.Ok tt, <[List.last argv [] := File (Blob [7%N]) Os.created_mode]> w);
     Tools.moviepy_editor := None;
     Tools.locale_encodes := Tools.utf8_encodes |}.






(** A machine whose ffmpeg ends well without doing anything. *)
Definition idle : Tools.t :=
  {| Tools.subprocess_run := fun _ => IO.ret tt;
     Tools.moviepy_editor := None;
     Tools.locale_encodes := Tools.utf8_encodes |}.

(** A machine whose ffmpeg answers to [-version] and fails on every
    other command. *)
Definition failing_ffmpeg : Tools.t :=
  {| Tools.subprocess_run := fun argv =>
       if bool_decide (argv = Integration.ffmpeg_version) then IO.ret tt
       else IO.raise CalledProcessError;
     Tools.moviepy_editor := None;
     Tools.locale_encodes := Tools.utf8_encodes |}.

(** A moviepy for which every video lasts 30 seconds and every audio
    24, and which stores a file where it is told to write. *)
Definition moviepy : Tools.moviepy :=
  {| Tools.VideoFileClip := fun path =>
       IO.ret {| Tools.video_source := path; Tools.video_duration := 30 # 1;
                 Tools.video_audio := None |};
     Tools.AudioFileClip := fun path =>
       IO.ret {| Tools.audio_source := path; Tools.audio_duration := 24 # 1 |};
     Tools.write_videofile := fun clip path _ _ =>
       Os.put path (Blob [9%N]) None |}.

(** A speech synthesis that stores a file where it is told to save,
    and a pipeline that works in the current directory. *)
Definition recorder : VoiceGenerator.speech :=
  fun text _ _ path => Os.put path (Text text) None.

Definition local_pipeline : ShortsGenerator.t :=
  {| ShortsGenerator.scripts_dir := None;
     ShortsGenerator.videos_dir := None;
     ShortsGenerator.audio_dir := None;
     ShortsGenerator.final_dir := None;
     ShortsGenerator.language := utf8 "fr";
     ShortsGenerator.font_path := [] |}.

(** A machine without ffmpeg, with that moviepy. *)
Definition only_moviepy : Tools.t :=
  {| Tools.subprocess_run := fun _ => IO.raise FileNotFoundError;
     Tools.moviepy_editor := Some moviepy;
     Tools.locale_encodes := Tools.utf8_encodes |}.

(** Every directory of [w] is a directory of [w'] and every file of [w]
    is a file of [w']: nothing was removed, nothing changed its kind. *)
Definition keeps_kinds (w w' : fs) : Prop :=
  forall p,
    (w !! p = Some Dir -> w' !! p = Some Dir)
    /\ (Os.is_file w p = true -> Os.is_file w' p = true).

(** A computation that keeps the kinds, from every file system and also
    when it raises. *)
Definition quiet {A} (m : IO.t A) : Prop :=
  forall w, keeps_kinds w (snd (m w)).

(** Stand-ins for the Unicode tables (letters and digits of ASCII) and
    for the JSON encoder. *)
Definition ascii_tables : Unicode.t :=
  {| Unicode.isalnum := fun c =>
       ((48 <=? c) && (c <=? 57) || (65 <=? c) && (c <=? 90)
        || (97 <=? c) && (c <=? 122))%N;
     Unicode.lower := Py.lower |}.

Definition title_only (script_data : Script.t) : str :=
  Script.title script_data.

(** A generator with a budget of no word at all. *)
Definition no_words : ShortScriptGenerator.t :=
  {| max_duration := 60; max_words := 0 |}.

Definition four_parts : str :=
  utf8 "a b" ++ blank_line ++ utf8 "c d" ++ blank_line ++ utf8 "e f"
    ++ blank_line ++ utf8 "g".

End More.

(** * Properties *)

(** ** Words, separators and slices *)
Section StringFacts.

Import Py.

Lemma split_from_space w a c b :
  isspace c = true ->
  split_from w (a ++ c :: b) = split_from w a ++ split_from [] b.
Proof.
  intros Hc. revert w. induction a as [|x a IH]; intros w; simpl.
  - rewrite Hc. destruct w; reflexivity.
  - destruct (isspace x).
    + destruct w; rewrite IH; reflexivity.
    + apply IH.
Qed.

Lemma split_app_space a c b :
  isspace c = true -> split (a ++ c :: b) = split a ++ split b.
Proof. apply split_from_space. Qed.

Lemma split_space_cons c b : isspace c = true -> split (c :: b) = split b.
Proof. intros Hc. unfold split. simpl. rewrite Hc. reflexivity. Qed.

Lemma split_app_blank_line a b :
  split (a ++ [newline; newline] ++ b) = split a ++ split b.
Proof.
  simpl. rewrite split_app_space by reflexivity.
  rewrite split_space_cons by reflexivity. reflexivity.
Qed.

Lemma split_from_nonspace w v rest :
  Forall nonspace v -> split_from w (v ++ rest) = split_from (w ++ v) rest.
Proof.
  intros Hv. revert w.
  induction Hv as [|c v Hc _ IH]; intros w; simpl.
  - rewrite app_nil_r. reflexivity.
  - rewrite Hc, IH, <- app_assoc. reflexivity.
Qed.

Lemma split_from_words s :
  forall w, Forall nonspace w -> Forall word (split_from w s).
Proof.
  induction s as [|c s IH]; intros w Hw; simpl.
  - destruct w; constructor; [split; [discriminate | assumption] | constructor].
  - destruct (isspace c) eqn:E.
    + destruct w.
      * apply IH. constructor.
      * constructor; [split; [discriminate | assumption] | apply IH; constructor].
    + apply IH. apply Forall_app. split; [assumption | repeat constructor; assumption].
Qed.

Lemma split_words s : Forall word (split s).
Proof. apply split_from_words. constructor. Qed.

Lemma join_cons sep x l :
  l <> [] -> join sep (x :: l) = x ++ sep ++ join sep l.
Proof. destruct l; [contradiction | reflexivity]. Qed.

Lemma split_from_word_space w rest :
  word w -> split_from [] (w ++ [space] ++ rest) = w :: split_from [] rest.
Proof.
  intros [Hne Hw]. rewrite split_from_nonspace by assumption.
  simpl. destruct w; [contradiction | reflexivity].
Qed.

Lemma split_join ws : Forall word ws -> split (join [space] ws) = ws.
Proof.
  induction 1 as [|w ws Hw Hws IH]; [reflexivity |].
  unfold split in *. destruct ws as [|w' ws'].
  - change (join [space] [w]) with w. destruct Hw as [Hne Hw].
    rewrite <- (app_nil_r w) at 1. rewrite split_from_nonspace by assumption.
    simpl. destruct w; [contradiction | reflexivity].
  - rewrite join_cons by discriminate.
    rewrite split_from_word_space by assumption. rewrite IH. reflexivity.
Qed.

Lemma split_join_take n s :
  split (join [space] (take n (split s))) = take n (split s).
Proof. apply split_join, Forall_take, split_words. Qed.

Lemma startswith_app sep s :
  startswith sep s = true -> exists rest, s = sep ++ rest.
Proof.
  revert s. induction sep as [|a sep IH]; intros s H.
  - exists s. reflexivity.
  - destruct s as [|b s]; [discriminate |]. simpl in H.
    apply andb_true_iff in H as [Hab Hs]. apply N.eqb_eq in Hab.
    destruct (IH _ Hs) as [rest ->]. exists rest. subst. reflexivity.
Qed.

Lemma split_sep_from_nonempty sep s : forall k part,
  split_sep_from sep k part s <> [].
Proof.
  induction s as [|c s IH]; intros k part; simpl; [discriminate |].
  destruct k; [| apply IH]. destruct (startswith sep (c :: s)); [discriminate | apply IH].
Qed.

Lemma join_split_sep_from sep s : sep <> [] -> forall k part,
  join sep (split_sep_from sep k part s) = part ++ drop k s.
Proof.
  intros Hsep. induction s as [|c s IH]; intros k part.
  - simpl. rewrite drop_nil, app_nil_r. reflexivity.
  - destruct k as [|k]; [| simpl; apply IH].
    change (split_sep_from sep 0 part (c :: s))
      with (if startswith sep (c :: s)
            then part :: split_sep_from sep (length sep - 1) [] s
            else split_sep_from sep 0 (part ++ [c]) s).
    destruct (startswith sep (c :: s)) eqn:E.
    + rewrite join_cons by apply split_sep_from_nonempty. rewrite IH.
      destruct (startswith_app _ _ E) as [rest Hrest].
      destruct sep as [|x sep']; [contradiction |].
      simpl in Hrest. injection Hrest as -> ->.
      replace (length (x :: sep') - 1)%nat with (length sep') by (simpl; lia).
      rewrite drop_app_length. reflexivity.
    + rewrite IH. simpl. rewrite <- app_assoc. reflexivity.
Qed.

(** Joining the parts of [s.split(sep)] with [sep] gives [s] back. *)
Lemma join_split_sep sep s : sep <> [] -> join sep (split_sep sep s) = s.
Proof. intros Hsep. apply (join_split_sep_from sep s Hsep 0%nat []). Qed.

Lemma slice_to_nonneg {A} (l : list A) n :
  0 <= n -> slice l None (Some n) = take (Z.to_nat n) l.
Proof.
  intros Hn. unfold slice, clamp, len. simpl.
  destruct (n <? 0) eqn:E; [apply Z.ltb_lt in E; lia |].
  rewrite drop_0, Z.sub_0_r.
  destruct (Z.le_gt_cases n (Z.of_nat (length l))) as [Hle | Hgt].
  - rewrite Z.min_l by assumption. reflexivity.
  - rewrite Z.min_r by lia. rewrite Nat2Z.id.
    rewrite !take_ge by lia. reflexivity.
Qed.

Lemma len_take {A} (l : list A) n :
  0 <= n -> len (take (Z.to_nat n) l) = Z.min n (len l).
Proof. intros Hn. unfold len. rewrite length_take. lia. Qed.

Lemma len_app {A} (l k : list A) : len (l ++ k) = len l + len k.
Proof. unfold len. rewrite length_app. lia. Qed.

End StringFacts.

(** ** The script budgeter *)
Section Budgeter.

Import Py ShortScriptGenerator.

Lemma split_three intro body conclusion :
  split (intro ++ blank_line ++ body ++ blank_line ++ conclusion)
  = split intro ++ split body ++ split conclusion.
Proof. unfold blank_line. rewrite !split_app_blank_line. reflexivity. Qed.

Lemma truncated_word_count (n : Z) script :
  0 <= n -> len (split (join [space] (slice (split script) None (Some n)))) <= n.
Proof.
  intros Hn. rewrite slice_to_nonneg, split_join_take, len_take by assumption. lia.
Qed.

(** After the adjustment the script holds at most [max_words] words. *)
Lemma adjust_word_count self script :
  0 <= max_words self ->
  len (split (_adjust_script_length self script)) <= max_words self.
Proof.
  intros Hmax. unfold _adjust_script_length. cbv zeta.
  destruct (len (split script) <=? max_words self) eqn:Hfit.
  { apply Z.leb_le. assumption. }
  destruct (3 <=? len (split_sep blank_line script));
    [| apply truncated_word_count; assumption].
  destruct (0 <? _) eqn:Hbudget; [| apply truncated_word_count; assumption].
  apply Z.ltb_lt in Hbudget.
  rewrite split_three, slice_to_nonneg, split_join_take by lia.
  rewrite !len_app, len_take by lia. lia.
Qed.

(** C9.  A script whose word count is at most [max_words] is returned
    as it is. *)
Theorem adjust_within_budget self script :
  len (split script) <= max_words self ->
  _adjust_script_length self script = script.
Proof.
  intros Hfit. unfold _adjust_script_length. cbv zeta.
  apply Z.leb_le in Hfit. rewrite Hfit. reflexivity.
Qed.

Lemma adjust_within_budget_witness :
  len (split (utf8 "un deux trois")) <= max_words default /\
  _adjust_script_length default (utf8 "un deux trois") = utf8 "un deux trois".
Proof.
  split; [vm_compute; discriminate |].
  apply adjust_within_budget. vm_compute. discriminate.
Defined.

(** C10, as amended.  For a non-negative [max_words] the adjustment is
    idempotent: its result is within the budget, hence a fixed point. *)
Theorem adjust_idempotent self script :
  0 <= max_words self ->
  _adjust_script_length self (_adjust_script_length self script)
  = _adjust_script_length self script.
Proof.
  intros Hmax.
  unfold _adjust_script_length at 1. cbv zeta.
  pose proof (adjust_word_count self script Hmax) as Hfit.
  apply Z.leb_le in Hfit. rewrite Hfit. reflexivity.
Qed.

(** C1, as amended.  A script over the budget that splits into exactly
    intro, body and conclusion on the blank line: when the budget left
    for the body is positive, intro and conclusion are kept verbatim
    and the body is cut to its first [budget] words, which brings the
    total to at most [max_words]; when it is not, and [max_words] is
    not negative, the whole text is cut to its first [max_words]
    words. *)
Theorem adjust_three_parts self script intro body conclusion :
  max_words self < len (split script) ->
  split_sep blank_line script = [intro; body; conclusion] ->
  let budget := max_words self - len (split intro) - len (split conclusion) in
  (0 < budget ->
     _adjust_script_length self script
     = intro ++ blank_line
         ++ join [space] (take (Z.to_nat budget) (split body))
         ++ blank_line ++ conclusion
     /\ len (take (Z.to_nat budget) (split body)) = budget
     /\ len (split (_adjust_script_length self script)) <= max_words self)
  /\ (budget <= 0 -> 0 <= max_words self ->
        _adjust_script_length self script
        = join [space] (take (Z.to_nat (max_words self)) (split script))).
Proof.
  intros Hover Hparts budget.
  assert (Hscript : script
                    = intro ++ blank_line ++ body ++ blank_line ++ conclusion).
  { rewrite <- (join_split_sep blank_line script) by discriminate.
    rewrite Hparts. reflexivity. }
  assert (Hwords : len (split script)
                   = len (split intro) + len (split body) + len (split conclusion)).
  { rewrite Hscript, split_three, !len_app. lia. }
  assert (Hunfold : _adjust_script_length self script
                    = if 0 <? budget
                      then intro ++ blank_line
                             ++ join [space]
                                  (slice (split body) None (Some budget))
                             ++ blank_line ++ conclusion
                      else join [space]
                             (slice (split script) None (Some (max_words self)))).
  { unfold _adjust_script_length. cbv zeta.
    destruct (len (split script) <=? max_words self) eqn:Hfit;
      [apply Z.leb_le in Hfit; lia |].
    rewrite Hparts. reflexivity. }
  split.
  - intros Hpos. rewrite Hunfold.
    destruct (0 <? budget) eqn:E; [| apply Z.ltb_ge in E; lia].
    rewrite slice_to_nonneg by lia.
    split; [reflexivity |]. split.
    + rewrite len_take by lia. lia.
    + rewrite split_three, split_join_take, !len_app, len_take by lia. lia.
  - intros Hneg Hmax. rewrite Hunfold.
    destruct (0 <? budget) eqn:E; [apply Z.ltb_lt in E; lia |].
    rewrite slice_to_nonneg by assumption. reflexivity.
Qed.

Lemma adjust_three_parts_witness :
  _adjust_script_length Sample.four_words Sample.seven_words
  = utf8 "a b" ++ blank_line ++ utf8 "c" ++ blank_line ++ utf8 " g"
  /\ _adjust_script_length Sample.two_words Sample.seven_words = utf8 "a b".
Proof.
  assert (Hparts : split_sep blank_line Sample.seven_words
                   = [utf8 "a b"; utf8 "c  d e f"; utf8 " g"])
    by (vm_compute; reflexivity).
  assert (Hfour : max_words Sample.four_words < len (split Sample.seven_words))
    by (vm_compute; reflexivity).
  assert (Htwo : max_words Sample.two_words < len (split Sample.seven_words))
    by (vm_compute; reflexivity).
  split.
  - destruct (adjust_three_parts _ _ _ _ _ Hfour Hparts) as [Hpos _].
    destruct Hpos as [Heq _]; [vm_compute; reflexivity |].
    rewrite Heq. vm_compute. reflexivity.
  - destruct (adjust_three_parts _ _ _ _ _ Htwo Hparts) as [_ Hneg].
    rewrite Hneg; [vm_compute; reflexivity | vm_compute; discriminate ..].
Defined.

(** C1 as stated fails for a negative [max_words]: the slice
    [words[:max_words]] then drops the last words instead of keeping
    the first ones. *)
Lemma adjust_three_parts_negative_max_words :
  max_words Sample.negative_budget < len (split Sample.three_letters)
  /\ split_sep blank_line Sample.three_letters = [utf8 "a"; utf8 "b"; utf8 "c"]
  /\ max_words Sample.negative_budget
       - len (split (utf8 "a")) - len (split (utf8 "c")) <= 0
  /\ _adjust_script_length Sample.negative_budget Sample.three_letters
     = utf8 "a b"
  /\ _adjust_script_length Sample.negative_budget Sample.three_letters
     <> join [space]
          (take (Z.to_nat (max_words Sample.negative_budget))
             (split Sample.three_letters)).
Proof.
  repeat split; try (vm_compute; reflexivity); vm_compute; discriminate.
Qed.

Lemma adjust_idempotent_witness :
  _adjust_script_length Sample.four_words
    (_adjust_script_length Sample.four_words Sample.seven_words)
  = _adjust_script_length Sample.four_words Sample.seven_words.
Proof. apply adjust_idempotent. vm_compute. discriminate. Defined.

(** C10 as stated fails for a negative [max_words]: every application
    drops one more word. *)
Lemma adjust_not_idempotent_negative_max_words :
  _adjust_script_length Sample.negative_budget Sample.abc = utf8 "a b"
  /\ _adjust_script_length Sample.negative_budget
       (_adjust_script_length Sample.negative_budget Sample.abc) = utf8 "a"
  /\ _adjust_script_length Sample.negative_budget
       (_adjust_script_length Sample.negative_budget Sample.abc)
     <> _adjust_script_length Sample.negative_budget Sample.abc.
Proof.
  repeat split; try (vm_compute; reflexivity); vm_compute; discriminate.
Qed.

End Budgeter.

(** ** The duration estimator *)
Section Estimator.

Import Py ShortScriptGenerator.

Lemma int_rate_floor (n : Z) :
  0 <= n -> int (inject_Z n / speaking_rate) = Qfloor (inject_Z n / speaking_rate).
Proof.
  intros Hn. unfold int, Qfloor, speaking_rate. simpl.
  apply Z.quot_div_nonneg; lia.
Qed.

Lemma floor_rate_nonneg (n : Z) :
  0 <= n -> 0 <= Qfloor (inject_Z n / speaking_rate).
Proof.
  intros Hn. unfold Qfloor, speaking_rate. simpl.
  apply Z.div_pos; lia.
Qed.

Lemma len_nonneg {A} (l : list A) : 0 <= len l.
Proof. unfold len. lia. Qed.

(** C2, as amended.  The estimate is the floor of the word count
    divided by 2.5, capped by [max_duration]; it never exceeds
    [max_duration], it is not negative when [max_duration] is not, and
    it is the floor itself when the floor is within the cap. *)
Theorem estimate_duration_spec self script :
  let unclamped := Qfloor (inject_Z (len (split script)) / (5 # 2)) in
  _estimate_duration self script = Z.min unclamped (max_duration self)
  /\ _estimate_duration self script <= max_duration self
  /\ (0 <= max_duration self ->
      0 <= _estimate_duration self script <= max_duration self)
  /\ (unclamped <= max_duration self ->
      _estimate_duration self script = unclamped).
Proof.
  intros unclamped.
  assert (Heq : _estimate_duration self script
                = Z.min unclamped (max_duration self)).
  { unfold _estimate_duration. cbv zeta.
    rewrite int_rate_floor by apply len_nonneg. reflexivity. }
  pose proof (floor_rate_nonneg _ (len_nonneg (split script))) as Hpos.
  fold unclamped in Hpos. change (5 # 2) with speaking_rate in unclamped.
  rewrite Heq. repeat split; lia.
Qed.

Lemma estimate_duration_spec_witness :
  0 <= _estimate_duration default Sample.seven_words <= max_duration default
  /\ _estimate_duration default Sample.seven_words = 2.
Proof.
  destruct (estimate_duration_spec default Sample.seven_words)
    as (_ & _ & Hrange & Hfloor).
  split.
  - apply Hrange. vm_compute. discriminate.
  - rewrite Hfloor; [vm_compute; reflexivity | vm_compute; discriminate].
Defined.

(** C2 as stated fails for a negative [max_duration]: the estimate is
    then negative. *)
Lemma estimate_duration_negative_cap :
  _estimate_duration Sample.negative_duration Sample.abc = -1
  /\ ~ (0 <= _estimate_duration Sample.negative_duration Sample.abc
        <= max_duration Sample.negative_duration).
Proof.
  split; [vm_compute; reflexivity |].
  intros [Hlow _]. vm_compute in Hlow. apply Hlow. reflexivity.
Qed.

End Estimator.

(** ** Script generation *)
Section Generation.

Import Py ShortScriptGenerator.

Lemma choice_three (a b c : str) g :
  Random.choice [a; b; c] g
  = (nth (Nat.modulo (g 0%nat) 3) [a; b; c] [], fun i => g (S i)).
Proof. reflexivity. Qed.

Lemma generate_script_fields self article g :
  let r := fst (generate_script self article g) in
  Script.full_script r = _adjust_script_length self (joined r)
  /\ Script.word_count r = len (split (Script.full_script r))
  /\ Script.estimated_duration r = _estimate_duration self (Script.full_script r).
Proof.
  unfold generate_script, Random.bind, Random.ret.
  destruct (_generate_intro _ _ g) as [intro g1].
  destruct (_generate_conclusion _ _ g1) as [conclusion g2].
  cbn. repeat split.
Qed.

(** C6, as amended.  In every script record, [full_script] is the
    length adjustment of intro, body and conclusion joined by blank
    lines, hence the joined text itself when that text is within the
    word budget; [word_count] is the word count of [full_script], and
    is at most [max_words] when [max_words] is not negative. *)
Theorem script_record_invariant self article g :
  let r := fst (generate_script self article g) in
  Script.full_script r = _adjust_script_length self (joined r)
  /\ Script.word_count r = len (split (Script.full_script r))
  /\ (len (split (joined r)) <= max_words self ->
      Script.full_script r = joined r)
  /\ (0 <= max_words self -> Script.word_count r <= max_words self).
Proof.
  intros r.
  destruct (generate_script_fields self article g) as (Hfull & Hcount & _).
  fold r in Hfull, Hcount.
  split; [assumption |]. split; [assumption |]. split.
  - intros Hfit. rewrite Hfull. unfold _adjust_script_length. cbv zeta.
    apply Z.leb_le in Hfit. rewrite Hfit. reflexivity.
  - intros Hmax. rewrite Hcount, Hfull. apply adjust_word_count. assumption.
Qed.

Lemma script_record_invariant_witness :
  let r := fst (generate_script default Sample.short_article Sample.zeros) in
  Script.full_script r = joined r /\ Script.word_count r <= 150.
Proof.
  intros r.
  destruct (script_record_invariant default Sample.short_article Sample.zeros)
    as (_ & _ & Hfit & Hmax).
  split.
  - apply Hfit. vm_compute. discriminate.
  - apply Hmax. vm_compute. discriminate.
Defined.

(** C6 as stated fails when the script is cut: [full_script] holds the
    shortened body, the [body] field the whole one. *)
Lemma script_record_truncated :
  let r := fst (generate_script default Sample.long_article Sample.zeros) in
  Script.word_count r = 150
  /\ len (split (joined r)) = 247
  /\ Script.full_script r <> joined r.
Proof.
  intros r. split; [vm_compute; reflexivity |].
  split; [vm_compute; reflexivity |].
  intros H. apply (f_equal (@length codepoint)) in H.
  vm_compute in H. discriminate.
Qed.

(** C8, as amended.  The script record is determined by the article
    and the three draws of the random generator (reduced modulo 3) that
    pick the intro template, the conclusion template and the engagement
    phrase; title, body and URL do not depend on the draws. *)
Theorem generate_script_draws self article g1 g2 :
  let r1 := fst (generate_script self article g1) in
  let r2 := fst (generate_script self article g2) in
  Script.title r1 = Script.title r2
  /\ Script.body r1 = Script.body r2
  /\ Script.article_url r1 = Script.article_url r2
  /\ ((forall i, (i < 3)%nat -> Nat.modulo (g1 i) 3 = Nat.modulo (g2 i) 3) ->
      r1 = r2).
Proof.
  unfold generate_script, _generate_intro, _generate_conclusion,
    intro_templates, conclusion_templates, engagement_phrases.
  unfold Random.bind at 1 3 4 6. unfold Random.ret.
  unfold Random.bind. rewrite !choice_three. cbn [fst snd].
  repeat split.
  intros Hdraws.
  rewrite (Hdraws 0%nat), (Hdraws 1%nat), (Hdraws 2%nat) by lia.
  reflexivity.
Qed.

Lemma generate_script_draws_witness :
  fst (generate_script default Sample.short_article Sample.zeros)
  = fst (generate_script default Sample.short_article (fun i => 3 * i)%nat).
Proof.
  apply generate_script_draws. intros i _.
  unfold Sample.zeros. rewrite Nat.mul_comm, Nat.Div0.mod_mul. reflexivity.
Defined.

(** C8 as stated fails: two invocations on the same article differ
    when the random generator delivers different draws, as it does for
    the second of two invocations in one process. *)
Lemma generate_script_not_deterministic :
  fst (generate_script default Sample.short_article Sample.zeros)
  <> fst (generate_script default Sample.short_article Sample.ones)
  /\ (let (first, g) := generate_script default Sample.short_article Sample.stepping in
      fst (generate_script default Sample.short_article g) <> first).
Proof.
  split.
  - intros H. apply (f_equal Script.intro) in H. vm_compute in H. discriminate.
  - vm_compute. intros H. discriminate.
Qed.

End Generation.

(** ** The frame renderer and the encoder *)
Section Video.

Import Py ShortVideoGenerator.











Lemma video_writer_ok self output_path frames w :
  fst (video_writer self output_path frames w) = IO.Ok tt.
Proof.
  unfold video_writer, IO.try_except.
  destruct (Os.put _ _ _ w) as [[[]|e] w']; reflexivity.
Qed.

Lemma ffmpeg_pass_ok tools output_path w :
  fst (ffmpeg_pass tools output_path w) = IO.Ok tt.
Proof.
  unfold ffmpeg_pass, IO.try_except.
  destruct (IO.bind _ _ w) as [[[]|e] w']; reflexivity.
Qed.

Lemma video_writer_stores self output_path frames w :
  Os.is_dir w (Os.dirname output_path) = true ->
  w !! output_path <> Some Dir ->
  exists mode,
    video_writer self output_path frames w
    = (IO.Ok tt,
       <[output_path :=
           File (Video (utf8 "mp4v") (fps self) (width self, height self) frames)
             mode]> w).
Proof.
  intros Hdir Hnode. unfold video_writer, IO.try_except, Os.put.
  rewrite Hdir. simpl.
  destruct (w !! output_path) as [[|data old]|]; [contradiction | |];
    eexists; reflexivity.
Qed.

(** C5.  The encoder raises the error for an empty input exactly when
    the list of frames is empty, before anything is written; on a
    non-empty list it ends without error, and the file handed to the
    ffmpeg pass holds every frame, in BGR order. *)
Theorem create_video_empty_input self tools frames output_path w :
  let run := _create_video_from_frames self tools frames output_path w in
  (fst run = IO.Raise (ValueError no_frames) <-> frames = [])
  /\ (frames = [] -> run = (IO.Raise (ValueError no_frames), w))
  /\ (frames <> [] -> fst run = IO.Ok tt)
  /\ (frames <> [] ->
      Os.is_dir w (Os.dirname output_path) = true ->
      w !! output_path <> Some Dir ->
      exists mode,
        run = ffmpeg_pass tools output_path
                (<[output_path :=
                     File (Video (utf8 "mp4v") (fps self)
                             (width self, height self)
                             (List.map rgb2bgr frames)) mode]> w)).
Proof.
  intros run. unfold run, _create_video_from_frames.
  destruct frames as [|f frames]; simpl.
  - repeat split; try reflexivity; intros H; contradiction.
  - assert (Hok : fst (IO.bind
                         (video_writer self output_path
                            (rgb2bgr f :: List.map rgb2bgr frames))
                         (fun _ => ffmpeg_pass tools output_path) w)
                  = IO.Ok tt).
    { unfold IO.bind.
      pose proof (video_writer_ok self output_path
                    (rgb2bgr f :: List.map rgb2bgr frames) w) as Hw.
      destruct (video_writer _ _ _ w) as [[[]|e] w1]; [| discriminate].
      apply ffmpeg_pass_ok. }
    split; [| split; [| split]].
    + split; [rewrite Hok |]; discriminate.
    + discriminate.
    + intros _. exact Hok.
    + intros _ Hdir Hnode.
      destruct (video_writer_stores self output_path
                  (rgb2bgr f :: List.map rgb2bgr frames) w Hdir Hnode)
        as [mode Hw].
      exists mode. unfold IO.bind. rewrite Hw. reflexivity.
Qed.

Lemma create_video_empty_input_witness :
  _create_video_from_frames Sample.video_generator Sample.no_tools []
    (utf8 "clip.mp4") ∅
  = (IO.Raise (ValueError no_frames), ∅)
  /\ fst (_create_video_from_frames Sample.video_generator Sample.no_tools
            [[[(25, 25, 112)]]] (utf8 "clip.mp4") ∅)
     = IO.Ok tt
  /\ exists mode,
       snd (_create_video_from_frames Sample.video_generator Sample.no_tools
              [[[(25, 25, 112)]]] (utf8 "clip.mp4") ∅)
       = <[utf8 "clip.mp4" :=
             File (Video (utf8 "mp4v") (Int 30) (1080, 1920)
                     [[[(112, 25, 25)]]]) mode]> ∅.
Proof.
  destruct (create_video_empty_input Sample.video_generator Sample.no_tools
              [] (utf8 "clip.mp4") ∅) as (_ & Hempty & _).
  destruct (create_video_empty_input Sample.video_generator Sample.no_tools
              [[[(25, 25, 112)]]] (utf8 "clip.mp4") ∅)
    as (_ & _ & Hfull & Hstored).
  split; [| split].
  - apply Hempty. reflexivity.
  - apply Hfull. discriminate.
  - destruct Hstored as [mode Hrun];
      [discriminate | reflexivity | rewrite lookup_empty; discriminate |].
    exists mode. rewrite Hrun. reflexivity.
Defined.





End Video.

(** ** Paths *)
Section Paths.

Import Py Os.

Local Arguments N.eqb : simpl never.

Lemma rsplit_at_none c s :
  Forall (fun x => x <> c) s -> rsplit_at c s = None.
Proof.
  induction 1 as [|x s Hx _ IH]; [reflexivity |].
  simpl. rewrite IH. apply N.eqb_neq in Hx. rewrite Hx. reflexivity.
Qed.

Lemma rsplit_at_app c a b :
  Forall (fun x => x <> c) b -> rsplit_at c (a ++ c :: b) = Some (a, b).
Proof.
  intros Hb. induction a as [|x a IH]; simpl.
  - rewrite (rsplit_at_none c b Hb), N.eqb_refl. reflexivity.
  - rewrite IH. reflexivity.
Qed.

(** The last separator splits a path into what precedes it and a part
    without separator. *)
Lemma rsplit_at_spec c s :
  match rsplit_at c s with
  | Some (a, b) => s = a ++ c :: b /\ Forall (fun x => x <> c) b
  | None => Forall (fun x => x <> c) s
  end.
Proof.
  induction s as [|x s IH]; simpl; [constructor |].
  destruct (rsplit_at c s) as [[a b]|].
  - destruct IH as [-> Hb]. split; [reflexivity | assumption].
  - destruct (x =? c)%N eqn:E.
    + apply N.eqb_eq in E. subst. split; [reflexivity | assumption].
    + apply N.eqb_neq in E. constructor; assumption.
Qed.

Lemma name_spec n :
  name n = true -> n <> [] /\ Forall (fun x => x <> slash) n.
Proof.
  unfold name. intros H. apply andb_true_iff in H as [Hn Hs].
  split; [destruct n; [discriminate | discriminate] |].
  apply negb_true_iff in Hs. apply Forall_forall. intros x Hx ->.
  assert (existsb (fun c => (c =? slash)%N) n = true); [| congruence].
  apply existsb_exists. exists slash. split; [| reflexivity].
  apply list_elem_of_In. assumption.
Qed.

Lemma open_ended_spec d :
  open_ended d = true <-> exists d' c, d = d' ++ [c] /\ c <> slash.
Proof.
  unfold open_ended, endswith. split.
  - intros H. apply andb_true_iff in H as [Hd Hs].
    destruct (rev d) as [|c r] eqn:E.
    + apply (f_equal (@rev codepoint)) in E. rewrite rev_involutive in E.
      subst. discriminate.
    + exists (rev r), c. split.
      * apply (f_equal (@rev codepoint)) in E. rewrite rev_involutive in E.
        exact E.
      * intros ->. simpl in Hs. discriminate.
  - intros (d' & c & -> & Hc). rewrite rev_app_distr. simpl.
    apply N.eqb_neq in Hc. rewrite N.eqb_sym, Hc.
    destruct d'; reflexivity.
Qed.

Lemma join_name d n :
  open_ended d = true -> name n = true -> join d n = d ++ slash :: n.
Proof.
  intros Hd Hn. unfold join.
  destruct (name_spec n Hn) as [Hne Hslash].
  destruct n as [|x n]; [contradiction |].
  apply Forall_cons in Hslash as [Hx _]. apply N.eqb_neq in Hx.
  simpl startswith. rewrite N.eqb_sym, Hx. simpl.
  unfold open_ended in Hd. apply andb_true_iff in Hd as [Hd Hs].
  rewrite Hd. apply negb_true_iff in Hs. rewrite Hs. reflexivity.
Qed.

Lemma rstrip_slash d : open_ended d = true -> rstrip_char slash (d ++ [slash]) = d.
Proof.
  intros Hd. apply open_ended_spec in Hd as (d' & c & -> & Hc).
  unfold rstrip_char. rewrite !rev_app_distr. simpl.
  apply N.eqb_neq in Hc. rewrite Hc. simpl.
  rewrite rev_involutive. reflexivity.
Qed.

Lemma all_of_open_ended d : open_ended d = true -> all_of slash (d ++ [slash]) = false.
Proof.
  intros Hd. apply open_ended_spec in Hd as (d' & c & -> & Hc).
  unfold all_of. rewrite !forallb_app. simpl.
  apply N.eqb_neq in Hc. rewrite Hc. simpl.
  rewrite andb_false_r. reflexivity.
Qed.

(** The directory of an entry of [d] is [d]. *)
Lemma dirname_join d n :
  open_ended d = true -> name n = true -> dirname (join d n) = d.
Proof.
  intros Hd Hn. rewrite join_name by assumption.
  unfold dirname. rewrite rsplit_at_app by apply name_spec, Hn.
  rewrite all_of_open_ended by assumption. apply rstrip_slash. assumption.
Qed.

Lemma join_name_inj d n m :
  open_ended d = true -> name n = true -> name m = true ->
  join d n = join d m -> n = m.
Proof.
  intros Hd Hn Hm. rewrite !join_name by assumption.
  intros H. apply app_inv_head in H. congruence.
Qed.

End Paths.

(** ** The bundle of the alternative integrator *)
Section Bundle.

Import Py Os AlternativeIntegrator.

Local Arguments N.eqb : simpl never.

Lemma endswith_app s suffix :
  endswith s suffix = true -> exists y, s = y ++ suffix.
Proof.
  unfold endswith. intros H. apply startswith_app in H as [r Hr].
  exists (rev r). apply (f_equal (@rev codepoint)) in Hr.
  rewrite rev_involutive, rev_app_distr, rev_involutive in Hr. exact Hr.
Qed.

Lemma join_suffix a b : exists y, join a b = y ++ b.
Proof.
  unfold join. destruct (startswith [slash] b); [exists []; reflexivity |].
  destruct (negb (truthy a) || endswith a [slash]).
  - exists a. reflexivity.
  - exists (a ++ [slash]). rewrite <- app_assoc. reflexivity.
Qed.

(** The output path always ends with the extension. *)
Lemma output_path_mp4 output_dir video_path output_filename :
  exists y,
    Integration.output_path output_dir video_path output_filename
    = y ++ utf8 ".mp4".
Proof.
  unfold Integration.output_path.
  set (name1 := if truthy (get output_filename []) then _ else _).
  assert (Hname : exists y,
             (if negb (endswith name1 (utf8 ".mp4"))
              then name1 ++ utf8 ".mp4" else name1) = y ++ utf8 ".mp4").
  { destruct (endswith name1 (utf8 ".mp4")) eqn:E; simpl.
    - apply endswith_app. assumption.
    - exists name1. reflexivity. }
  destruct Hname as [y ->].
  destruct (truthy (get output_dir [])); [| exists y; reflexivity].
  destruct (join_suffix (get output_dir []) (y ++ utf8 ".mp4")) as [z ->].
  exists (z ++ y). rewrite <- app_assoc. reflexivity.
Qed.

Lemma all_of_nil_or_last c z :
  all_of c z = false -> exists z' x, z = z' ++ [x].
Proof.
  destruct z as [|x z] using rev_ind; [discriminate |].
  intros _. exists z, x. reflexivity.
Qed.

(** Without its extension, a path that ends with [.mp4] is not empty
    and does not end with a slash. *)
Lemma splitext_mp4 y : open_ended (fst (splitext (y ++ utf8 ".mp4"))) = true.
Proof.
  change (utf8 ".mp4") with (dot :: utf8 "mp4").
  assert (Hmp4_dot : Forall (fun x => x <> dot) (utf8 "mp4"))
    by (repeat constructor; discriminate).
  assert (Hmp4_slash : Forall (fun x => x <> slash) (dot :: utf8 "mp4"))
    by (repeat constructor; discriminate).
  assert (Hwhole : open_ended (y ++ dot :: utf8 "mp4") = true).
  { apply open_ended_spec. exists (y ++ [dot; 109%N; 112%N]), 52%N.
    split; [rewrite <- app_assoc; reflexivity | discriminate]. }
  assert (Hlast : forall head z,
             Forall (fun x => x <> slash) z ->
             all_of dot z = false ->
             open_ended (head ++ z) = true).
  { intros head z Hz Hdots.
    destruct (all_of_nil_or_last _ _ Hdots) as (z' & x & ->).
    apply open_ended_spec. exists (head ++ z'), x.
    split; [rewrite <- app_assoc; reflexivity |].
    apply Forall_app in Hz as [_ Hx]. apply Forall_cons in Hx as [Hx _].
    exact Hx. }
  unfold splitext.
  pose proof (rsplit_at_spec slash y) as Hy.
  destruct (rsplit_at slash y) as [[a z]|].
  - destruct Hy as [Hy Hz].
    assert (Hrs : rsplit_at slash (y ++ dot :: utf8 "mp4")
                  = Some (a, z ++ dot :: utf8 "mp4")).
    { rewrite Hy, <- app_assoc. simpl.
      apply rsplit_at_app, Forall_app. split; assumption. }
    rewrite Hrs, rsplit_at_app by assumption.
    destruct (all_of dot z) eqn:Hdots; [exact Hwhole |].
    apply Hlast; assumption.
  - assert (Hrs : rsplit_at slash (y ++ dot :: utf8 "mp4") = None).
    { apply rsplit_at_none, Forall_app. split; assumption. }
    rewrite Hrs, rsplit_at_app by assumption.
    destruct (all_of dot y) eqn:Hdots; [exact Hwhole |].
    apply (Hlast [] y); assumption.
Qed.

Lemma bundle_dir_open_ended self video_path output_filename :
  open_ended (bundle_dir self video_path output_filename) = true.
Proof.
  unfold bundle_dir.
  destruct (output_path_mp4 (output_dir self) video_path output_filename)
    as [y ->].
  apply splitext_mp4.
Qed.

Lemma ancestors_from_length p : forall seen a,
  a ∈ ancestors_from seen p ->
  (length seen <= length a < length seen + length p)%nat.
Proof.
  induction p as [|c p IH]; intros seen a Ha; simpl in Ha.
  - apply elem_of_nil in Ha. contradiction.
  - apply elem_of_app in Ha as [Ha | Ha].
    + destruct ((c =? slash)%N && truthy seen && negb (endswith seen [slash]));
        [| apply elem_of_nil in Ha; contradiction].
      apply list_elem_of_singleton in Ha as ->. simpl. lia.
    + apply IH in Ha. rewrite length_app in Ha. simpl in *. lia.
Qed.

Lemma ancestors_shorter d a : a ∈ ancestors d -> (length a < length d)%nat.
Proof. intros Ha. apply ancestors_from_length in Ha. simpl in Ha. lia. Qed.

Lemma lookup_foldr_dirs (l : list str) (w : fs) k :
  k ∉ l -> foldr (fun a w' => <[a := Dir]> w') w l !! k = w !! k.
Proof.
  induction l as [|a l IH]; intros Hk; simpl; [reflexivity |].
  apply not_elem_of_cons in Hk as [Hne Hk].
  rewrite lookup_insert_ne by congruence. apply IH. assumption.
Qed.

Lemma lookup_made_dirs w d k :
  k <> d -> k ∉ ancestors d -> made_dirs w d !! k = w !! k.
Proof.
  intros Hne Hk. unfold made_dirs.
  rewrite lookup_insert_ne by congruence. apply lookup_foldr_dirs. assumption.
Qed.

Lemma length_join_name d n :
  open_ended d = true -> name n = true ->
  (length d < length (join d n))%nat.
Proof.
  intros Hd Hn. rewrite join_name by assumption.
  rewrite length_app. simpl. lia.
Qed.

Lemma all_of_slash_open_ended d : open_ended d = true -> all_of slash d = false.
Proof.
  intros Hd. apply open_ended_spec in Hd as (d' & c & -> & Hc).
  unfold all_of. rewrite forallb_app. simpl.
  apply N.eqb_neq in Hc. rewrite Hc. apply andb_false_r.
Qed.

Lemma truthy_open_ended d : open_ended d = true -> truthy d = true.
Proof. unfold open_ended. intros H. apply andb_true_iff in H as [H _]. exact H. Qed.

Lemma bind_ok {A B} (m : IO.t A) (k : A -> IO.t B) w a w' :
  m w = (IO.Ok a, w') -> IO.bind m k w = k a w'.
Proof. intros H. unfold IO.bind. rewrite H. reflexivity. Qed.

Lemma put_new (w : fs) d n data mode :
  open_ended d = true -> name n = true ->
  w !! d = Some Dir -> w !! join d n = None ->
  put (join d n) data mode w
  = (IO.Ok tt, <[join d n := File data (from_option id created_mode mode)]> w).
Proof.
  intros Hd Hn Hdir Hfree. unfold put.
  rewrite dirname_join by assumption.
  unfold is_dir. rewrite Hdir, orb_true_r. simpl. rewrite Hfree. reflexivity.
Qed.

Lemma copy2_new (w : fs) src d n data mode :
  open_ended d = true -> name n = true ->
  w !! src = Some (File data mode) ->
  w !! d = Some Dir -> w !! join d n = None ->
  copy2 src (join d n) w = (IO.Ok tt, <[join d n := File data mode]> w).
Proof.
  intros Hd Hn Hsrc Hdir Hfree. unfold copy2. rewrite Hsrc, Hfree.
  rewrite bool_decide_false by congruence.
  rewrite put_new by assumption. reflexivity.
Qed.

Lemma encoded_prefix_all (encodable : codepoint -> bool) (texts : list str) :
  forallb (forallb encodable) texts = true ->
  encoded_prefix encodable texts = texts.
Proof.
  induction texts as [|t texts IH]; [reflexivity |]. simpl.
  intros H. apply andb_true_iff in H as [Ht Hrest].
  rewrite Ht, IH by assumption. reflexivity.
Qed.

Lemma write_texts_encodable (encodable : codepoint -> bool) (p : str)
    (texts : list str) (w : fs) :
  forallb (forallb encodable) texts = true ->
  write_texts encodable p texts w = put p (Text (concat texts)) None w.
Proof.
  intros Henc. unfold write_texts, IO.bind.
  rewrite encoded_prefix_all, Henc by assumption.
  destruct (put p (Text (concat texts)) None w) as [[[]|e] w']; reflexivity.
Qed.

Section Fresh.

Variables (w : fs) (d : str).
Hypothesis Hd : open_ended d = true.
Hypothesis Hwf : well_formed w.
Hypothesis Hfresh : w !! d = None.
Hypothesis Hanc : existsb (is_file w) (ancestors d) = false.

Lemma fresh_no_entry n : name n = true -> w !! join d n = None.
Proof.
  intros Hn. destruct (w !! join d n) eqn:E; [| reflexivity].
  assert (Hdir : is_dir w d = true)
    by (apply (Hwf d n Hd Hn); rewrite E; eauto).
  unfold is_dir in Hdir.
  rewrite truthy_open_ended, all_of_slash_open_ended, Hfresh in Hdir
    by assumption.
  discriminate.
Qed.

Lemma join_not_made n : name n = true -> join d n <> d /\ join d n ∉ ancestors d.
Proof.
  intros Hn. pose proof (length_join_name d n Hd Hn) as Hlen. split.
  - intros E. rewrite E in Hlen. lia.
  - intros Hin. apply ancestors_shorter in Hin. lia.
Qed.

Lemma made_dirs_no_entry n : name n = true -> made_dirs w d !! join d n = None.
Proof.
  intros Hn. destruct (join_not_made n Hn) as [Hne Hnot].
  rewrite lookup_made_dirs by assumption. apply fresh_no_entry. assumption.
Qed.

Lemma made_dirs_file p data mode :
  w !! p = Some (File data mode) -> made_dirs w d !! p = Some (File data mode).
Proof.
  intros Hp. rewrite lookup_made_dirs; [assumption | congruence |].
  intros Hin.
  assert (Hex : existsb (is_file w) (ancestors d) = true); [| congruence].
  apply existsb_exists. exists p. split; [apply list_elem_of_In, Hin |].
  unfold is_file. rewrite Hp. reflexivity.
Qed.

Lemma makedirs_fresh : makedirs d w = (IO.Ok tt, made_dirs w d).
Proof.
  unfold makedirs. rewrite truthy_open_ended by assumption. simpl.
  rewrite bool_decide_false by (rewrite Hfresh; apply is_Some_None).
  rewrite Hanc. reflexivity.
Qed.

Lemma names_of_bundle :
  name video_name = true /\ name audio_name = true
  /\ name script_name = true /\ name readme_name = true.
Proof. repeat split. Qed.

Lemma join_names_differ n m :
  name n = true -> name m = true -> n <> m -> join d n <> join d m.
Proof. intros Hn Hm Hne E. apply Hne. eapply join_name_inj; eassumption. Qed.

(** In a directory that was not there, the bundle is made without
    error and consists of the four files, when the locale can encode
    the two texts. *)
Lemma bundle_fresh encodable video_path audio_path vdata vmode adata amode :
  encodable_texts encodable = true ->
  w !! video_path = Some (File vdata vmode) ->
  w !! audio_path = Some (File adata amode) ->
  bundle encodable video_path audio_path d w
  = (IO.Ok tt, bundled w d (File vdata vmode) (File adata amode)).
Proof.
  intros Henc Hv Ha.
  unfold encodable_texts in Henc. rewrite forallb_app in Henc.
  apply andb_true_iff in Henc as [Hscript Hreadme].
  destruct names_of_bundle as (Nv & Na & Ns & Nr).
  pose proof (made_dirs_no_entry _ Nv) as Ev.
  pose proof (made_dirs_no_entry _ Na) as Ea.
  pose proof (made_dirs_no_entry _ Ns) as Es.
  pose proof (made_dirs_no_entry _ Nr) as Er.
  pose proof (made_dirs_file _ _ _ Hv) as Hv1.
  pose proof (made_dirs_file _ _ _ Ha) as Ha1.
  assert (Hdir : made_dirs w d !! d = Some Dir)
    by (unfold made_dirs; apply lookup_insert_eq).
  assert (Dva : join d audio_name <> join d video_name)
    by (apply join_names_differ; [assumption.. | discriminate]).
  assert (Dvs : join d script_name <> join d video_name)
    by (apply join_names_differ; [assumption.. | discriminate]).
  assert (Dvr : join d readme_name <> join d video_name)
    by (apply join_names_differ; [assumption.. | discriminate]).
  assert (Das : join d script_name <> join d audio_name)
    by (apply join_names_differ; [assumption.. | discriminate]).
  assert (Dar : join d readme_name <> join d audio_name)
    by (apply join_names_differ; [assumption.. | discriminate]).
  assert (Dsr : join d readme_name <> join d script_name)
    by (apply join_names_differ; [assumption.. | discriminate]).
  destruct (join_not_made _ Nv) as [Dv _].
  destruct (join_not_made _ Na) as [Da _].
  destruct (join_not_made _ Ns) as [Ds _].
  destruct (join_not_made _ Nr) as [Dr _].
  unfold bundle, bundled, combine_sh, readme.
  revert Hscript Hreadme. generalize combine_sh_texts, readme_texts.
  intros script_texts texts Hscript Hreadme.
  rewrite (bind_ok _ _ w false w)
    by (unfold exists_; rewrite bool_decide_false;
        [reflexivity | rewrite Hfresh; apply is_Some_None]).
  simpl negb. cbv iota.
  rewrite (bind_ok _ _ _ _ _ makedirs_fresh).
  rewrite (bind_ok _ _ _ tt (<[join d video_name := File vdata vmode]> (made_dirs w d)))
    by (apply copy2_new; assumption).
  rewrite (bind_ok _ _ _ tt
             (<[join d audio_name := File adata amode]>
                (<[join d video_name := File vdata vmode]> (made_dirs w d)))).
  2: { apply copy2_new; try assumption;
       rewrite lookup_insert_ne by congruence; assumption. }
  rewrite (bind_ok _ _ _ tt
             (<[join d script_name := File (Text (concat script_texts))
                                        created_mode]>
                (<[join d audio_name := File adata amode]>
                   (<[join d video_name := File vdata vmode]> (made_dirs w d))))).
  2: { rewrite write_texts_encodable by exact Hscript.
       apply put_new; try assumption;
       rewrite !lookup_insert_ne by congruence; assumption. }
  rewrite (bind_ok _ _ _ tt
             (<[join d script_name := File (Text (concat script_texts)) 493]>
                (<[join d audio_name := File adata amode]>
                   (<[join d video_name := File vdata vmode]> (made_dirs w d))))).
  2: { unfold chmod. rewrite lookup_insert_eq, insert_insert_eq. reflexivity. }
  rewrite write_texts_encodable by exact Hreadme.
  apply put_new; try assumption;
    rewrite !lookup_insert_ne by congruence; assumption.
Qed.

(** Its entries are the four names and no other. *)
Lemma bundled_entries video audio n :
  entry (bundled w d video audio) d n = true
  <-> n ∈ [video_name; audio_name; script_name; readme_name].
Proof.
  destruct names_of_bundle as (Nv & Na & Ns & Nr).
  unfold entry, bundled. rewrite andb_true_iff, bool_decide_eq_true.
  rewrite !elem_of_cons. split.
  - intros [Hn Hsome].
    destruct (decide (n = readme_name)) as [-> | Hr]; [tauto |].
    destruct (decide (n = script_name)) as [-> | Hs]; [tauto |].
    destruct (decide (n = audio_name)) as [-> | Ha]; [tauto |].
    destruct (decide (n = video_name)) as [-> | Hv]; [tauto |].
    exfalso.
    rewrite !lookup_insert_ne in Hsome
      by (apply join_names_differ; [assumption.. | congruence]).
    rewrite made_dirs_no_entry in Hsome by assumption.
    destruct Hsome as [? ?]. discriminate.
  - intros [-> | [-> | [-> | [-> | H]]]]; [| | | | apply elem_of_nil in H; contradiction];
      (split; [reflexivity |]).
    + rewrite !lookup_insert_ne
        by (apply join_names_differ; [assumption.. | discriminate]).
      rewrite lookup_insert_eq. eauto.
    + rewrite !lookup_insert_ne
        by (apply join_names_differ; [assumption.. | discriminate]).
      rewrite lookup_insert_eq. eauto.
    + rewrite !lookup_insert_ne
        by (apply join_names_differ; [assumption.. | discriminate]).
      rewrite lookup_insert_eq. eauto.
    + rewrite lookup_insert_eq. eauto.
Qed.

End Fresh.

End Bundle.

(** ** Audio-video integration *)
Section Integrators.

Import Py Os AlternativeIntegrator.

Local Arguments N.eqb : simpl never.

Lemma try_except_ok {A} (m : IO.t A) handled handler w a w' :
  m w = (IO.Ok a, w') -> IO.try_except m handled handler w = (IO.Ok a, w').
Proof. intros H. unfold IO.try_except. rewrite H. reflexivity. Qed.

Lemma join_has_slash a n :
  a <> [] -> name n = true -> exists x y, join a n = x ++ slash :: y.
Proof.
  intros Ha Hn. destruct (name_spec n Hn) as [Hne Hslash].
  unfold join. destruct n as [|c n]; [contradiction |].
  apply Forall_cons in Hslash as [Hc _]. apply N.eqb_neq in Hc.
  change (startswith [slash] (c :: n)) with ((slash =? c)%N && true).
  rewrite N.eqb_sym, Hc. cbv beta iota delta [andb].
  destruct a as [|b a]; [contradiction |].
  change (negb (truthy (b :: a))) with false. rewrite orb_false_l.
  destruct (endswith (b :: a) [slash]) eqn:E.
  - apply endswith_app in E as [y ->]. exists y, (c :: n).
    rewrite <- app_assoc. reflexivity.
  - exists (b :: a), (c :: n). reflexivity.
Qed.

(** A file system whose paths hold no separator is well formed. *)
Lemma well_formed_flat (w : fs) :
  (forall k, is_Some (w !! k) -> Forall (fun x => x <> slash) k) ->
  well_formed w.
Proof.
  intros Hflat d n _ Hn Hsome. apply Hflat in Hsome.
  unfold is_dir. destruct d as [|c d]; [reflexivity |]. exfalso.
  destruct (join_has_slash (c :: d) n) as (x & y & Hjoin);
    [discriminate | assumption |].
  rewrite Hjoin in Hsome. apply Forall_app in Hsome as [_ Hsome].
  apply Forall_cons in Hsome as [Hsome _]. contradiction.
Qed.

Lemma media_well_formed : well_formed Sample.media.
Proof.
  apply well_formed_flat. intros k [v Hk]. unfold Sample.media in Hk.
  destruct (decide (k = utf8 "clip.mp4")) as [-> | H1];
    [repeat constructor; discriminate |].
  rewrite lookup_insert_ne in Hk by congruence.
  destruct (decide (k = utf8 "voice.mp3")) as [-> | H2];
    [repeat constructor; discriminate |].
  rewrite lookup_insert_ne in Hk by congruence.
  rewrite lookup_empty in Hk. discriminate.
Qed.

(** A file system that passes the check path by path is well formed. *)
Lemma well_formedb_spec (w : fs) : well_formedb w = true -> well_formed w.
Proof.
  intros Hcheck d n Hd Hn [v Hv].
  unfold well_formedb in Hcheck. rewrite forallb_forall in Hcheck.
  assert (Hin : In (join d n) (List.map fst (map_to_list w))).
  { apply in_map_iff. exists (join d n, v). split; [reflexivity |].
    apply list_elem_of_In, elem_of_map_to_list. exact Hv. }
  apply Hcheck in Hin.
  rewrite join_name in Hin by assumption.
  rewrite rsplit_at_app in Hin by apply name_spec, Hn.
  rewrite Hd, Hn in Hin. exact Hin.
Qed.

Lemma project_well_formed : well_formed Sample.project.
Proof. apply well_formedb_spec. vm_compute. reflexivity. Qed.

Lemma integrate_never_raises tools self video_path audio_path output_filename w :
  exists r w',
    integrate tools self video_path audio_path output_filename w = (IO.Ok r, w').
Proof.
  unfold integrate, IO.try_except at 1.
  destruct (IO.bind _ _ w) as [[r|e] w']; simpl; eauto.
Qed.

(** The other integrator gives up when neither ffmpeg nor moviepy is
    there: its result is [None]. *)
Lemma voice_video_without_tools tools self video_path audio_path
    output_filename w e :
  Tools.subprocess_run tools Integration.ffmpeg_version w = (IO.Raise e, w) ->
  Integration.subprocess_or_not_found e = true ->
  Tools.moviepy_editor tools = None ->
  VoiceVideoIntegrator.integrate tools self video_path audio_path
    output_filename w
  = (IO.Ok None, w).
Proof.
  intros Hversion He Hmoviepy. unfold VoiceVideoIntegrator.integrate.
  apply try_except_ok.
  rewrite (bind_ok _ _ w false w).
  2: { unfold Integration.ffmpeg_available, IO.try_except, IO.bind.
       rewrite Hversion, He. reflexivity. }
  rewrite Hmoviepy. reflexivity.
Qed.

(** C4, as amended.  The integrator of the pipeline never raises.
    When ffmpeg answers and the mux command succeeds, it returns the
    path of the output file.  When ffmpeg is missing, both inputs are
    files, the directory of the bundle is not there yet (in a well
    formed file system, with no file above it) and the encoding of the
    locale has every character of the two generated texts, it returns
    that directory, which then holds exactly four entries: the copies
    of the video and of the audio, the shell script and the
    instructions. *)
Theorem integrate_tiers tools self video_path audio_path output_filename w :
  let output_path :=
    Integration.output_path (output_dir self) video_path output_filename in
  let d := bundle_dir self video_path output_filename in
  (exists r w',
     integrate tools self video_path audio_path output_filename w
     = (IO.Ok r, w'))
  /\ (forall w1 w2,
       Tools.subprocess_run tools Integration.ffmpeg_version w = (IO.Ok tt, w1) ->
       Tools.subprocess_run tools
         (Integration.ffmpeg_mux video_path audio_path output_path) w1
       = (IO.Ok tt, w2) ->
       integrate tools self video_path audio_path output_filename w
       = (IO.Ok (Some output_path), w2))
  /\ (forall e vdata vmode adata amode,
       Tools.subprocess_run tools Integration.ffmpeg_version w = (IO.Raise e, w) ->
       Integration.subprocess_or_not_found e = true ->
       w !! video_path = Some (File vdata vmode) ->
       w !! audio_path = Some (File adata amode) ->
       well_formed w ->
       w !! d = None ->
       existsb (is_file w) (ancestors d) = false ->
       encodable_texts (Tools.locale_encodes tools) = true ->
       let w' := bundled w d (File vdata vmode) (File adata amode) in
       integrate tools self video_path audio_path output_filename w
       = (IO.Ok (Some d), w')
       /\ (forall n,
             entry w' d n = true
             <-> n ∈ [video_name; audio_name; script_name; readme_name])
       /\ w' !! join d video_name = Some (File vdata vmode)
       /\ w' !! join d audio_name = Some (File adata amode)
       /\ w' !! join d script_name = Some (File (Text combine_sh) 493)
       /\ w' !! join d readme_name = Some (File (Text readme) created_mode)).
Proof.
  intros output_path d. split; [apply integrate_never_raises |]. split.
  - intros w1 w2 Hversion Hmux. unfold integrate.
    apply try_except_ok. fold output_path.
    rewrite (bind_ok _ _ w true w1).
    2: { unfold Integration.ffmpeg_available. apply try_except_ok.
         rewrite (bind_ok _ _ _ _ _ Hversion). reflexivity. }
    rewrite (bind_ok _ _ _ _ _ Hmux). reflexivity.
  - intros e vdata vmode adata amode Hversion He Hv Ha Hwf Hfresh Hanc Henc w'.
    pose proof (bundle_dir_open_ended self video_path output_filename) as Hd.
    fold d in Hd.
    destruct names_of_bundle as (Nv & Na & Ns & Nr).
    split; [| split; [| repeat split]].
    + unfold integrate. apply try_except_ok. fold output_path.
      rewrite (bind_ok _ _ w false w).
      2: { unfold Integration.ffmpeg_available, IO.try_except, IO.bind.
           rewrite Hversion, He. reflexivity. }
      change (fst (splitext output_path)) with d.
      rewrite (bind_ok _ _ _ _ _
                 (bundle_fresh w d Hd Hwf Hfresh Hanc _ _ _ _ _ _ _
                    Henc Hv Ha)).
      reflexivity.
    + intros n. apply bundled_entries; assumption.
    + unfold w', bundled.
      rewrite !lookup_insert_ne
        by (apply join_names_differ; [assumption.. | discriminate]).
      apply lookup_insert_eq.
    + unfold w', bundled.
      rewrite !lookup_insert_ne
        by (apply join_names_differ; [assumption.. | discriminate]).
      apply lookup_insert_eq.
    + unfold w', bundled.
      rewrite !lookup_insert_ne
        by (apply join_names_differ; [assumption.. | discriminate]).
      apply lookup_insert_eq.
    + unfold w', bundled. apply lookup_insert_eq.
Qed.

Lemma integrate_tiers_witness :
  integrate Sample.with_ffmpeg Sample.integrator (utf8 "clip.mp4")
    (utf8 "voice.mp3") None Sample.media
  = (IO.Ok (Some (utf8 "clip-with-voice.mp4")),
     <[utf8 "clip-with-voice.mp4" := File (Blob [0%N]) created_mode]>
       Sample.media)
  /\ fst (integrate Sample.no_tools Sample.final_integrator
           (utf8 "out/videos/clip.mp4") (utf8 "out/audio/voice.mp3") None
           Sample.project)
     = IO.Ok (Some (utf8 "out/final/clip-with-voice"))
  /\ forall n,
       entry
         (bundled Sample.project (utf8 "out/final/clip-with-voice")
            Sample.clip Sample.voice)
         (utf8 "out/final/clip-with-voice") n = true
       <-> n ∈ [video_name; audio_name; script_name; readme_name].
Proof.
  destruct (integrate_tiers Sample.with_ffmpeg Sample.integrator
              (utf8 "clip.mp4") (utf8 "voice.mp3") None Sample.media)
    as (_ & Hmux & _).
  destruct (integrate_tiers Sample.no_tools Sample.final_integrator
              (utf8 "out/videos/clip.mp4") (utf8 "out/audio/voice.mp3") None
              Sample.project)
    as (_ & _ & Hbundle).
  assert (Hclip : Sample.project !! utf8 "out/videos/clip.mp4"
                  = Some (File (Blob [1%N; 2%N]) created_mode))
    by (vm_compute; reflexivity).
  assert (Hvoice : Sample.project !! utf8 "out/audio/voice.mp3"
                   = Some (File (Blob [3%N]) created_mode))
    by (vm_compute; reflexivity).
  assert (Hfresh : Sample.project
                     !! bundle_dir Sample.final_integrator
                          (utf8 "out/videos/clip.mp4") None
                   = None)
    by (vm_compute; reflexivity).
  assert (Hanc : existsb (is_file Sample.project)
                   (ancestors
                      (bundle_dir Sample.final_integrator
                         (utf8 "out/videos/clip.mp4") None))
                 = false)
    by (vm_compute; reflexivity).
  assert (Henc : encodable_texts (Tools.locale_encodes Sample.no_tools) = true)
    by (vm_compute; reflexivity).
  destruct (Hbundle FileNotFoundError _ _ _ _ eq_refl eq_refl Hclip Hvoice
              project_well_formed Hfresh Hanc Henc) as (Hrun & Hentries & _).
  split; [| split].
  - apply (Hmux Sample.media); reflexivity.
  - rewrite Hrun. reflexivity.
  - exact Hentries.
Defined.

(** C4 as stated fails: without ffmpeg the pipeline's integrator
    returns [None] when the video is missing, and also, with both
    inputs there, under a locale whose encoding lacks the accented
    letters of the generated texts, where it leaves the start of the
    script and no instructions; the other integrator returns [None]
    when moviepy is missing too; and a bundle directory left by an
    earlier run keeps its other entries. *)
Lemma integrate_returns_none :
  fst (integrate Sample.no_tools Sample.integrator (utf8 "missing.mp4")
         (utf8 "voice.mp3") None Sample.media)
  = IO.Ok None
  /\ fst (integrate Sample.ascii_machine Sample.integrator (utf8 "clip.mp4")
           (utf8 "voice.mp3") None Sample.media)
     = IO.Ok None
  /\ snd (integrate Sample.ascii_machine Sample.integrator (utf8 "clip.mp4")
           (utf8 "voice.mp3") None Sample.media)
       !! utf8 "clip-with-voice/combine.sh"
     = Some (File (Text (paragraph "#!/bin/bash")) created_mode)
  /\ snd (integrate Sample.ascii_machine Sample.integrator (utf8 "clip.mp4")
           (utf8 "voice.mp3") None Sample.media)
       !! utf8 "clip-with-voice/README.txt"
     = None
  /\ fst (VoiceVideoIntegrator.integrate Sample.no_tools
           Sample.voice_video_integrator (utf8 "clip.mp4") (utf8 "voice.mp3")
           None Sample.media)
     = IO.Ok None
  /\ fst (integrate Sample.no_tools Sample.integrator (utf8 "clip.mp4")
           (utf8 "voice.mp3") None Sample.media_after_run)
     = IO.Ok (Some (utf8 "clip-with-voice"))
  /\ entry
       (snd (integrate Sample.no_tools Sample.integrator (utf8 "clip.mp4")
               (utf8 "voice.mp3") None Sample.media_after_run))
       (utf8 "clip-with-voice") (utf8 "combined.mp4")
     = true.
Proof. repeat split; vm_compute; reflexivity. Qed.

End Integrators.

(** * Further properties *)

(** ** The budgeter on scripts of any shape *)
Section BudgeterShapes.

Import Py ShortScriptGenerator.

Lemma split_join_space (l : list str) :
  split (join [space] l) = concat (List.map split l).
Proof.
  induction l as [|x l IH]; [reflexivity |].
  destruct l as [|y l].
  - simpl. rewrite app_nil_r. reflexivity.
  - rewrite join_cons by discriminate.
    change (x ++ [space] ++ join [space] (y :: l))
      with (x ++ space :: join [space] (y :: l)).
    rewrite split_app_space by reflexivity. rewrite IH. reflexivity.
Qed.

Lemma split_join_blank_line (l : list str) :
  split (join blank_line l) = concat (List.map split l).
Proof.
  induction l as [|x l IH]; [reflexivity |].
  destruct l as [|y l].
  - simpl. rewrite app_nil_r. reflexivity.
  - rewrite join_cons by discriminate.
    unfold blank_line at 1. rewrite split_app_blank_line.
    fold blank_line. rewrite IH. reflexivity.
Qed.

Lemma parts_decompose (parts : list str) :
  3 <= len parts ->
  exists intro middle conclusion,
    parts = intro :: middle ++ [conclusion] /\ middle <> [].
Proof.
  unfold len. intros Hlen.
  destruct parts as [|intro rest]; [simpl in Hlen; lia |].
  destruct rest as [|conclusion rest _] using rev_ind; [simpl in Hlen; lia |].
  exists intro, rest, conclusion. split; [reflexivity |].
  intros ->. simpl in Hlen. lia.
Qed.

Lemma slice_middle (intro conclusion : str) (middle : list str) :
  slice (intro :: middle ++ [conclusion]) (Some 1) (Some (-1)) = middle.
Proof.
  unfold slice, clamp, len. simpl from_option.
  rewrite length_app. simpl length.
  rewrite Z.min_l by lia. rewrite Z.max_r by lia.
  change (Z.to_nat 1) with 1%nat. simpl drop.
  replace (Z.to_nat (-1 + Z.of_nat (S (length middle + 1)) - 1))
    with (length middle) by lia.
  apply take_app_length.
Qed.

Lemma slice_to_take {A} (l : list A) (n : Z) :
  exists k, slice l None (Some n) = take k l.
Proof. unfold slice. simpl. rewrite drop_0. eauto. Qed.

(** The text returned when the script is over the budget, by the parts
    of the script. *)
Lemma adjust_over_budget self script intro middle conclusion :
  max_words self < len (split script) ->
  split_sep blank_line script = intro :: middle ++ [conclusion] ->
  middle <> [] ->
  _adjust_script_length self script
  = if 0 <? max_words self - len (split intro) - len (split conclusion)
    then intro ++ blank_line
           ++ join [space]
                (slice (concat (List.map split middle)) None
                   (Some (max_words self - len (split intro)
                          - len (split conclusion))))
           ++ blank_line ++ conclusion
    else join [space] (slice (split script) None (Some (max_words self))).
Proof.
  intros Hover Hparts Hmiddle. unfold _adjust_script_length. cbv zeta.
  destruct (len (split script) <=? max_words self) eqn:Hfit;
    [apply Z.leb_le in Hfit; lia |].
  rewrite Hparts.
  assert (Hlen : (3 <=? len (intro :: middle ++ [conclusion])) = true).
  { apply Z.leb_le. unfold len. rewrite length_cons, length_app. simpl.
    destruct middle; [contradiction | simpl; lia]. }
  rewrite Hlen, slice_middle, split_join_space.
  unfold first_part, last_part. simpl nth.
  change (intro :: middle ++ [conclusion])
    with ((intro :: middle) ++ [conclusion]).
  rewrite last_last. reflexivity.
Qed.

Lemma script_words script intro middle conclusion :
  split_sep blank_line script = intro :: middle ++ [conclusion] ->
  split script
  = split intro ++ concat (List.map split middle) ++ split conclusion.
Proof.
  intros Hparts.
  rewrite <- (join_split_sep blank_line script) at 1 by discriminate.
  rewrite Hparts, split_join_blank_line. simpl.
  rewrite map_app, concat_app. simpl. rewrite app_nil_r. reflexivity.
Qed.

(** X1.  A script over the budget with three or more parts: the first
    part and the last part are kept as they are, and all the parts
    between them are merged into one body of the first [budget] words,
    when that budget is positive. *)
Theorem adjust_many_parts self script intro middle conclusion :
  max_words self < len (split script) ->
  split_sep blank_line script = intro :: middle ++ [conclusion] ->
  middle <> [] ->
  let budget := max_words self - len (split intro) - len (split conclusion) in
  0 < budget ->
  _adjust_script_length self script
  = intro ++ blank_line
      ++ join [space] (take (Z.to_nat budget) (concat (List.map split middle)))
      ++ blank_line ++ conclusion
  /\ len (take (Z.to_nat budget) (concat (List.map split middle))) = budget.
Proof.
  intros Hover Hparts Hmiddle budget Hpos.
  rewrite (adjust_over_budget _ _ _ _ _ Hover Hparts Hmiddle).
  fold budget. apply Z.ltb_lt in Hpos as Hpos'. rewrite Hpos'.
  rewrite slice_to_nonneg by lia. split; [reflexivity |].
  rewrite len_take by lia.
  pose proof (script_words _ _ _ _ Hparts) as Hwords.
  apply (f_equal len) in Hwords. rewrite !len_app in Hwords.
  unfold budget. lia.
Qed.

Lemma adjust_many_parts_witness :
  _adjust_script_length Sample.four_words More.four_parts
  = utf8 "a b" ++ blank_line ++ utf8 "c" ++ blank_line ++ utf8 "g".
Proof.
  assert (Hover : max_words Sample.four_words < len (split More.four_parts))
    by (vm_compute; reflexivity).
  assert (Hparts : split_sep blank_line More.four_parts
                   = utf8 "a b" :: [utf8 "c d"; utf8 "e f"] ++ [utf8 "g"])
    by (vm_compute; reflexivity).
  destruct (adjust_many_parts _ _ _ _ _ Hover Hparts) as [Heq _];
    [discriminate | vm_compute; reflexivity |].
  rewrite Heq. vm_compute. reflexivity.
Defined.

Lemma over_budget_count self script :
  0 <= max_words self ->
  max_words self < len (split script) ->
  len (split (_adjust_script_length self script)) = max_words self.
Proof.
  intros Hmax Hover.
  assert (Hcut : len (split (join [space]
                               (slice (split script) None
                                  (Some (max_words self)))))
                 = max_words self).
  { rewrite slice_to_nonneg, split_join_take, len_take by assumption. lia. }
  destruct (Z.le_gt_cases 3 (len (split_sep blank_line script))) as [Hlen | Hlen].
  - destruct (parts_decompose _ Hlen) as (intro & middle & conclusion & Hparts & Hmiddle).
    rewrite (adjust_over_budget _ _ _ _ _ Hover Hparts Hmiddle).
    destruct (0 <? _) eqn:Hbudget; [| exact Hcut].
    apply Z.ltb_lt in Hbudget.
    pose proof (script_words _ _ _ _ Hparts) as Hwords.
    apply (f_equal len) in Hwords. rewrite !len_app in Hwords.
    rewrite slice_to_nonneg by lia.
    rewrite split_three.
    assert (Hbody : split (join [space]
                             (take (Z.to_nat (max_words self - len (split intro)
                                              - len (split conclusion)))
                                (concat (List.map split middle))))
                    = take (Z.to_nat (max_words self - len (split intro)
                                      - len (split conclusion)))
                        (concat (List.map split middle))).
    { apply split_join, Forall_take. rewrite <- split_join_space.
      apply split_words. }
    rewrite Hbody, !len_app, len_take by lia. lia.
  - unfold _adjust_script_length. cbv zeta.
    destruct (len (split script) <=? max_words self) eqn:Hfit;
      [apply Z.leb_le in Hfit; lia |].
    destruct (3 <=? len (split_sep blank_line script)) eqn:E;
      [apply Z.leb_le in E; lia |].
    exact Hcut.
Qed.

(** X2.  A script over a budget that is not negative is cut to exactly
    [max_words] words. *)
Theorem adjust_exact_count self script :
  0 <= max_words self ->
  max_words self < len (split script) ->
  len (split (_adjust_script_length self script)) = max_words self.
Proof. apply over_budget_count. Qed.

Lemma adjust_exact_count_witness :
  len (split (_adjust_script_length Sample.four_words More.four_parts)) = 4.
Proof.
  apply (adjust_exact_count Sample.four_words More.four_parts);
    vm_compute; [discriminate | reflexivity].
Defined.

(** X3.  Whatever [max_words] is, the words of the adjusted script are
    words of the script, in their order: nothing is added or moved, and
    the word count never grows. *)
Theorem adjust_keeps_words self script :
  split (_adjust_script_length self script) `sublist_of` split script
  /\ len (split (_adjust_script_length self script)) <= len (split script).
Proof.
  assert (Hsub : split (_adjust_script_length self script)
                   `sublist_of` split script).
  { assert (Hcut : split (join [space]
                            (slice (split script) None (Some (max_words self))))
                     `sublist_of` split script).
    { destruct (slice_to_take (split script) (max_words self)) as [k ->].
      rewrite split_join_take. apply sublist_take. }
    destruct (Z.le_gt_cases (len (split script)) (max_words self)) as [Hfit | Hover].
    - unfold _adjust_script_length. cbv zeta.
      apply Z.leb_le in Hfit. rewrite Hfit. reflexivity.
    - destruct (Z.le_gt_cases 3 (len (split_sep blank_line script)))
        as [Hlen | Hlen].
      + destruct (parts_decompose _ Hlen)
          as (intro & middle & conclusion & Hparts & Hmiddle).
        rewrite (adjust_over_budget _ _ _ _ _ Hover Hparts Hmiddle).
        destruct (0 <? _); [| exact Hcut].
        rewrite split_three, (script_words _ _ _ _ Hparts).
        apply sublist_app; [reflexivity |].
        apply sublist_app; [| reflexivity].
        destruct (slice_to_take (concat (List.map split middle))
                    (max_words self - len (split intro)
                     - len (split conclusion))) as [k ->].
        assert (Hbody : split (join [space]
                                 (take k (concat (List.map split middle))))
                        = take k (concat (List.map split middle))).
        { apply split_join, Forall_take. rewrite <- split_join_space.
          apply split_words. }
        rewrite Hbody. apply sublist_take.
      + unfold _adjust_script_length. cbv zeta.
        destruct (len (split script) <=? max_words self) eqn:Hfit;
          [reflexivity |].
        destruct (3 <=? len (split_sep blank_line script)) eqn:E;
          [apply Z.leb_le in E; lia |].
        exact Hcut. }
  split; [exact Hsub |].
  apply sublist_length in Hsub. unfold len. lia.
Qed.

End BudgeterShapes.

(** ** The body of the script *)
Section Body.

Import Py ShortScriptGenerator More.

Lemma collect_key_points_length content : forall key_points,
  (length key_points <= 2)%nat ->
  (length (collect_key_points content key_points) <= 3)%nat.
Proof.
  induction content as [|section rest IH]; intros key_points Hlen; simpl;
    [lia |].
  match goal with |- context [3 <=? len ?k] => set (kp := k) end.
  assert (Hkp : (length kp <= 3)%nat).
  { unfold kp. repeat (destruct (_ && _)); rewrite ?length_app; simpl; lia. }
  destruct (3 <=? len kp) eqn:E; [exact Hkp |].
  apply IH. apply Z.leb_gt in E. unfold len in E. lia.
Qed.

Lemma collect_paragraphs_length content : forall key_points,
  (length key_points <= 1)%nat ->
  (length (collect_paragraphs content key_points) <= 2)%nat.
Proof.
  induction content as [|section rest IH]; intros key_points Hlen; simpl;
    [lia |].
  destruct (_ && _); [| apply IH; assumption].
  destruct (2 <=? len (key_points ++ _)) eqn:E.
  - rewrite length_app. simpl. lia.
  - apply IH. apply Z.leb_gt in E. unfold len in E. lia.
Qed.

Lemma lstrip_length s : (length (lstrip s) <= length s)%nat.
Proof.
  induction s as [|c s IH]; simpl; [lia |].
  destruct (isspace c); simpl; lia.
Qed.

Lemma strip_length s : (length (strip s) <= length s)%nat.
Proof.
  unfold strip. rewrite length_rev.
  etransitivity; [apply lstrip_length |]. rewrite length_rev.
  apply lstrip_length.
Qed.

Lemma add_point_length body point :
  (length (add_point body point) <= length body + 101)%nat.
Proof.
  assert (Hdots : length (utf8 "...") = 3%nat) by reflexivity.
  assert (Hspace : length (utf8 " ") = 1%nat) by reflexivity.
  unfold add_point. destruct (100 <? len point) eqn:E.
  - rewrite slice_to_nonneg by lia.
    rewrite !length_app, length_take, Hdots, Hspace. lia.
  - apply Z.ltb_ge in E. unfold len in E. rewrite !length_app, Hspace. lia.
Qed.

Lemma add_points_length key_points : forall body,
  (length (fold_left add_point key_points body)
   <= length body + 101 * length key_points)%nat.
Proof.
  induction key_points as [|point rest IH]; intros body; simpl; [lia |].
  etransitivity; [apply IH |].
  pose proof (add_point_length body point). lia.
Qed.

Lemma add_points_prefix key_points : forall body,
  exists rest, fold_left add_point key_points body = body ++ rest.
Proof.
  induction key_points as [|point rest IH]; intros body; simpl.
  - exists []. rewrite app_nil_r. reflexivity.
  - destruct (IH (add_point body point)) as [r ->].
    unfold add_point. eexists. rewrite <- app_assoc. reflexivity.
Qed.

Lemma lstrip_app_nonspace x c y :
  isspace c = false -> lstrip (x ++ c :: y) = lstrip x ++ c :: y.
Proof.
  intros Hc. induction x as [|a x IH]; simpl.
  - rewrite Hc. reflexivity.
  - destruct (isspace a); [exact IH | reflexivity].
Qed.

(** Stripping keeps a prefix that starts and ends with a character that
    is no whitespace. *)
Lemma strip_keeps_prefix c0 a c1 b :
  isspace c0 = false -> isspace c1 = false ->
  strip ((c0 :: a ++ [c1]) ++ b)
  = (c0 :: a ++ [c1]) ++ rev (lstrip (rev b)).
Proof.
  intros H0 H1. unfold strip.
  change (lstrip ((c0 :: a ++ [c1]) ++ b)) with
    (if isspace c0 then lstrip ((a ++ [c1]) ++ b) else (c0 :: a ++ [c1]) ++ b).
  rewrite H0. rewrite rev_app_distr.
  change (rev (c0 :: a ++ [c1])) with (rev (a ++ [c1]) ++ [c0]).
  rewrite rev_app_distr. simpl rev at 2. simpl app at 2.
  rewrite lstrip_app_nonspace by assumption.
  rewrite rev_app_distr. f_equal.
  simpl. rewrite rev_app_distr, rev_involutive. reflexivity.
Qed.

Lemma generate_body_unfold content summary :
  _generate_body content summary
  = if truthy summary && (20 <? len summary) then summary
    else
      let key_points := collect_key_points content [] in
      let key_points :=
        if truthy key_points then key_points
        else collect_paragraphs content key_points in
      if truthy key_points
      then strip (fold_left add_point key_points (announcement ++ [space]))
      else no_content.
Proof.
  assert (Hannounce : utf8 "Voici ce que vous devez retenir : "
                      = announcement ++ [space])
    by (vm_compute; reflexivity).
  unfold _generate_body, add_point, no_content. rewrite Hannounce.
  reflexivity.
Qed.

Lemma body_points_length content :
  let key_points := collect_key_points content [] in
  (length (if truthy key_points then key_points
           else collect_paragraphs content key_points) <= 3)%nat.
Proof.
  intros key_points.
  pose proof (collect_key_points_length content [] ltac:(simpl; lia)) as H3.
  fold key_points in H3.
  destruct key_points eqn:E; simpl; [| simpl in H3; lia].
  pose proof (collect_paragraphs_length content [] ltac:(simpl; lia)). lia.
Qed.

(** X4.  The body is never longer than the summary or 337 characters,
    whatever the size of the article: at most three key points, each of
    at most 100 characters, after the announcement. *)
Theorem generate_body_bounded content summary :
  len (_generate_body content summary) <= Z.max (len summary) 337.
Proof.
  rewrite generate_body_unfold.
  destruct (truthy summary && (20 <? len summary)); [lia |].
  cbv zeta.
  pose proof (body_points_length content) as Hpoints. cbv zeta in Hpoints.
  set (key_points := if truthy (collect_key_points content []) then _ else _)
    in *.
  destruct (truthy key_points).
  - pose proof (strip_length
                  (fold_left add_point key_points (announcement ++ [space]))) as Hs.
    pose proof (add_points_length key_points (announcement ++ [space])) as Hf.
    assert (Ha : length (announcement ++ [space]) = 34%nat) by reflexivity.
    unfold len. lia.
  - assert (Hn : len no_content = 107) by reflexivity. lia.
Qed.

(** X5.  The body is never empty.  When the summary has at most 20
    characters it is not used: the body is then the fixed sentence for
    an article without usable content, or starts with the announcement
    of the key points. *)
Theorem generate_body_forms content summary :
  _generate_body content summary <> []
  /\ (len summary <= 20 ->
      _generate_body content summary = no_content
      \/ exists rest, _generate_body content summary = announcement ++ rest).
Proof.
  rewrite generate_body_unfold.
  destruct (truthy summary && (20 <? len summary)) eqn:Hsum.
  - apply andb_true_iff in Hsum as [Hs Hlen]. split.
    + destruct summary; discriminate.
    + intros Hshort. apply Z.ltb_lt in Hlen. lia.
  - cbv zeta.
    set (key_points := if truthy (collect_key_points content []) then _ else _).
    destruct (truthy key_points).
    + destruct (add_points_prefix key_points (announcement ++ [space]))
        as [rest ->].
      rewrite <- app_assoc.
      change announcement
        with (86%N :: utf8 "oici ce que vous devez retenir " ++ [58%N]).
      rewrite strip_keeps_prefix by reflexivity.
      split; [discriminate |]. intros _. right. eauto.
    + split; [discriminate |]. intros _. left. reflexivity.
Qed.

Lemma generate_body_forms_witness :
  _generate_body [ {| Block.type := Some (utf8 "h2");
                      Block.text := Some (utf8 "Un titre") |} ] (utf8 "court")
  = utf8 "Voici ce que vous devez retenir : Un titre"
  /\ (_generate_body [] [] = no_content
       \/ exists rest, _generate_body [] [] = announcement ++ rest).
Proof.
  split; [vm_compute; reflexivity |].
  apply (generate_body_forms [] []). vm_compute. discriminate.
Defined.

End Body.

(** ** Script records and the narration *)
Section Records.

Import Py ShortScriptGenerator.

Lemma int_rate_div (n : Z) : 0 <= n -> int (inject_Z n / speaking_rate) = 2 * n / 5.
Proof.
  intros Hn. rewrite int_rate_floor by assumption.
  unfold Qfloor, speaking_rate. simpl. rewrite Z.mul_comm. reflexivity.
Qed.

(** X6.  In every script record the estimated duration is the word
    count times 2/5, rounded down and capped by [max_duration]; when
    the word budget fits in the duration ([2 * max_words / 5 <=
    max_duration], as for 150 words and 60 seconds) the cap is never
    reached. *)
Theorem script_record_duration self article g :
  let r := fst (generate_script self article g) in
  Script.estimated_duration r
  = Z.min (2 * Script.word_count r / 5) (max_duration self)
  /\ (0 <= max_words self -> 2 * max_words self / 5 <= max_duration self ->
      Script.estimated_duration r = 2 * Script.word_count r / 5
      /\ 0 <= Script.estimated_duration r <= 2 * max_words self / 5).
Proof.
  intros r.
  destruct (generate_script_fields self article g) as (Hfull & Hcount & Hest).
  fold r in Hfull, Hcount, Hest.
  assert (Heq : Script.estimated_duration r
                = Z.min (2 * Script.word_count r / 5) (max_duration self)).
  { rewrite Hest, Hcount. unfold _estimate_duration. cbv zeta.
    rewrite int_rate_div by apply len_nonneg. reflexivity. }
  split; [exact Heq |]. intros Hmax Hcap.
  assert (Hwc : 0 <= Script.word_count r <= max_words self).
  { rewrite Hcount. split; [apply len_nonneg |].
    rewrite Hfull. apply adjust_word_count. assumption. }
  assert (Hdiv : 0 <= 2 * Script.word_count r / 5 <= 2 * max_words self / 5).
  { split; [apply Z.div_pos; lia | apply Z.div_le_mono; lia]. }
  rewrite Heq. lia.
Qed.

Lemma script_record_duration_witness :
  let r := fst (generate_script default Sample.long_article Sample.zeros) in
  Script.estimated_duration r = 2 * Script.word_count r / 5
  /\ 0 <= Script.estimated_duration r <= 60.
Proof.
  intros r.
  destruct (script_record_duration default Sample.long_article Sample.zeros)
    as [_ Hfit].
  apply Hfit; vm_compute; discriminate.
Defined.

(** X7.  Keys that are missing and values that are discarded leave no
    trace: an article without author, with an empty author or with the
    author "Auteur inconnu" gives the same script, and so does an
    article without summary and one with a summary of at most 20
    characters. *)
Theorem generate_script_unknown_author self title author summary content url g :
  let article author summary :=
    {| Article.title := title; Article.author := author;
       Article.summary := summary; Article.content := content;
       Article.url := url |} in
  generate_script self (article None summary) g
  = generate_script self (article (Some (utf8 "Auteur inconnu")) summary) g
  /\ generate_script self (article None summary) g
     = generate_script self (article (Some []) summary) g
  /\ forall short,
       len short <= 20 ->
       generate_script self (article author (Some short)) g
       = generate_script self (article author None) g.
Proof.
  intros article. split; [reflexivity |]. split; [reflexivity |].
  intros short Hshort. unfold generate_script, article. simpl get.
  assert (Hbody : _generate_body (get content []) short
                  = _generate_body (get content []) []).
  { unfold _generate_body. simpl truthy at 2.
    destruct (20 <? len short) eqn:E; [apply Z.ltb_lt in E; lia |].
    rewrite andb_false_r. reflexivity. }
  rewrite Hbody. reflexivity.
Qed.

Lemma generate_script_unknown_author_witness :
  generate_script default
    {| Article.title := Some (utf8 "Rocq"); Article.author := None;
       Article.summary := Some (utf8 "bref"); Article.content := None;
       Article.url := None |} Sample.zeros
  = generate_script default
      {| Article.title := Some (utf8 "Rocq"); Article.author := None;
         Article.summary := None; Article.content := None;
         Article.url := None |} Sample.zeros.
Proof.
  apply (generate_script_unknown_author default (Some (utf8 "Rocq")) None None
           None None Sample.zeros).
  vm_compute. discriminate.
Defined.

Lemma split_from_word_nonempty s : forall w, w <> [] -> split_from w s <> [].
Proof.
  induction s as [|c s IH]; intros w Hw; simpl.
  - destruct w; [contradiction | discriminate].
  - destruct (isspace c).
    + destruct w; [contradiction | discriminate].
    + apply IH. destruct w; discriminate.
Qed.

Lemma split_nonempty s : Exists nonspace s -> split s <> [].
Proof.
  induction 1 as [c s Hc | c s _ IH].
  - unfold split. simpl. rewrite Hc.
    apply split_from_word_nonempty. discriminate.
  - unfold split in *. simpl. destruct (isspace c); [exact IH |].
    apply split_from_word_nonempty. discriminate.
Qed.

Lemma intro_has_word title author g :
  split (fst (_generate_intro title author g)) <> [].
Proof.
  unfold _generate_intro, intro_templates, Random.bind, Random.ret.
  rewrite choice_three.
  assert (Hi : (Nat.modulo (g 0%nat) 3 < 3)%nat) by (apply Nat.mod_upper_bound; lia).
  apply split_nonempty.
  assert (H0 : Exists nonspace (utf8 "Bonjour à tous ! Aujourd'hui, je vous présente un article intéressant intitulé "))
    by (vm_compute; left; reflexivity).
  assert (H1 : Exists nonspace (utf8 "Salut ! Je vais vous parler de "))
    by (vm_compute; left; reflexivity).
  assert (H2 : Exists nonspace (utf8 "Bienvenue ! Dans cette vidéo, je vais vous résumer l'article "))
    by (vm_compute; left; reflexivity).
  destruct (Nat.modulo (g 0%nat) 3) as [|[|[|i]]]; [| | | lia];
    cbn [nth fst]; destruct (truthy author && _);
    repeat (apply Exists_app; left); assumption.
Qed.

Lemma joined_has_word self article g :
  0 < len (split (joined (fst (generate_script self article g)))).
Proof.
  unfold generate_script, Random.bind, Random.ret.
  pose proof (intro_has_word
                (get (Article.title article) (utf8 "Sans titre"))
                (get (Article.author article) (utf8 "Auteur inconnu")) g) as Hintro.
  destruct (_generate_intro _ _ g) as [intro g1].
  destruct (_generate_conclusion _ _ g1) as [conclusion g2].
  cbn [fst] in *. unfold joined.
  cbn [Script.intro Script.body Script.conclusion].
  rewrite split_three, !len_app.
  pose proof (len_nonneg (split (_generate_body (get (Article.content article) [])
                                    (get (Article.summary article) [])))).
  pose proof (len_nonneg (split conclusion)).
  assert (0 < len (split intro)); [| lia].
  unfold len. destruct (split intro); [contradiction | simpl; lia].
Qed.

(** X8.  What is spoken.  With a budget of at least one word the text
    handed to the speech synthesis is [full_script], within the budget;
    with a budget of zero words [full_script] is empty and the synthesis
    gets the whole text of the three sections instead, uncut. *)
Theorem narration_budget self article g :
  let r := fst (generate_script self article g) in
  (1 <= max_words self ->
   VoiceGenerator.narration r = Script.full_script r
   /\ 0 < len (split (VoiceGenerator.narration r)) <= max_words self)
  /\ (max_words self = 0 ->
      Script.full_script r = []
      /\ VoiceGenerator.narration r = joined r
      /\ 0 < len (split (VoiceGenerator.narration r))).
Proof.
  intros r.
  destruct (generate_script_fields self article g) as (Hfull & _).
  fold r in Hfull.
  pose proof (joined_has_word self article g) as Hword. fold r in Hword.
  split.
  - intros Hmax.
    assert (Hcount : 0 < len (split (Script.full_script r)) <= max_words self).
    { rewrite Hfull.
      destruct (Z.le_gt_cases (len (split (joined r))) (max_words self))
        as [Hfit | Hover].
      - unfold _adjust_script_length. cbv zeta.
        apply Z.leb_le in Hfit as Hfit'. rewrite Hfit'. lia.
      - rewrite over_budget_count by lia. lia. }
    assert (Hnarr : VoiceGenerator.narration r = Script.full_script r).
    { unfold VoiceGenerator.narration. cbv zeta.
      destruct (Script.full_script r); [| reflexivity].
      change (len (split [])) with 0 in Hcount. lia. }
    rewrite Hnarr. split; [reflexivity | exact Hcount].
  - intros Hzero.
    assert (Hempty : Script.full_script r = []).
    { rewrite Hfull. unfold _adjust_script_length. cbv zeta.
      destruct (len (split (joined r)) <=? max_words self) eqn:Hfit;
        [apply Z.leb_le in Hfit; lia |].
      assert (Hcut : join [space]
                       (slice (split (joined r)) None (Some (max_words self)))
                     = []).
      { rewrite Hzero, slice_to_nonneg by lia. reflexivity. }
      rewrite Hcut.
      destruct (3 <=? _); [| reflexivity].
      destruct (0 <? _) eqn:E; [| reflexivity].
      apply Z.ltb_lt in E.
      pose proof (len_nonneg (split (first_part (split_sep blank_line (joined r))))).
      pose proof (len_nonneg (split (last_part (split_sep blank_line (joined r))))).
      lia. }
    split; [exact Hempty |].
    assert (Hnarr : VoiceGenerator.narration r = joined r).
    { unfold VoiceGenerator.narration. cbv zeta. rewrite Hempty. reflexivity. }
    rewrite Hnarr. split; [reflexivity | exact Hword].
Qed.

Lemma narration_budget_witness :
  VoiceGenerator.narration
    (fst (generate_script default Sample.long_article Sample.zeros))
  = Script.full_script
      (fst (generate_script default Sample.long_article Sample.zeros))
  /\ Script.full_script
       (fst (generate_script More.no_words Sample.short_article Sample.zeros))
     = [].
Proof.
  split.
  - apply (narration_budget default Sample.long_article Sample.zeros).
    vm_compute. discriminate.
  - apply (narration_budget More.no_words Sample.short_article Sample.zeros).
    reflexivity.
Defined.

End Records.

(** ** The video of a script *)
Section VideoOfScript.

Import Py ShortVideoGenerator.

Lemma startswith_prefix (p r : str) : startswith p (p ++ r) = true.
Proof.
  induction p as [|c p IH]; [reflexivity |].
  simpl. rewrite N.eqb_refl. exact IH.
Qed.

Lemma endswith_suffix (y suffix : str) : endswith (y ++ suffix) suffix = true.
Proof. unfold endswith. rewrite rev_app_distr. apply startswith_prefix. Qed.









(** X11.  What a frame shows: a picture of the size of the video in the
    background colour, on which the text is always drawn, the title
    only when there is one and the caption of the link only when it is
    asked for and the URL is not empty; every text is in the text
    colour. *)
Theorem draw_image_texts lib self text title include_url url :
  let img := draw_image lib self text title include_url url in
  Imaging.size img = (width self, height self)
  /\ Imaging.color img = background_color self
  /\ List.map Imaging.text (Imaging.texts img)
     = (if truthy title then [Imaging.textwrap_fill lib title 30] else [])
         ++ [Imaging.textwrap_fill lib text 40]
         ++ (if include_url && truthy url then [url_text] else [])
  /\ Forall (fun op => Imaging.fill op = text_color self) (Imaging.texts img).
Proof.
  unfold draw_image.
  destruct (fonts lib self) as [[title_font text_font] url_font].
  destruct (Imaging.textbbox lib (Imaging.textwrap_fill lib title 30) title_font)
    as [[[a b] c] d].
  destruct (Imaging.textbbox lib (Imaging.textwrap_fill lib text 40) text_font)
    as [[[a' b'] c'] d'].
  destruct (Imaging.textbbox lib url_text url_font) as [[[a0 b0] c0] d0].
  destruct (truthy title); destruct (include_url && truthy url);
    cbn [Imaging.size Imaging.color Imaging.texts Imaging.text Imaging.fill
         Imaging.new Imaging.draw_text List.map app];
    repeat split; repeat (constructor; try reflexivity).
Qed.

(** X12.  The pass through ffmpeg is a best effort.  When the command
    raises, or when it ends without leaving its output file, the video
    stays as the writer made it; when it leaves its output file, that
    file takes the place of the video. *)
Theorem ffmpeg_pass_best_effort tools output_path w w1 :
  let temp_output := output_path ++ utf8 ".temp.mp4" in
  let command := ffmpeg_optimize output_path temp_output in
  (forall e,
     Tools.subprocess_run tools command w = (IO.Raise e, w1) ->
     ffmpeg_pass tools output_path w = (IO.Ok tt, w1))
  /\ (Tools.subprocess_run tools command w = (IO.Ok tt, w1) ->
      w1 !! temp_output = None ->
      ffmpeg_pass tools output_path w = (IO.Ok tt, w1))
  /\ (forall data mode,
       Tools.subprocess_run tools command w = (IO.Ok tt, w1) ->
       w1 !! temp_output = Some (File data mode) ->
       w1 !! output_path <> Some Dir ->
       ffmpeg_pass tools output_path w
       = (IO.Ok tt, <[output_path := File data mode]> (delete temp_output w1))).
Proof.
  intros temp_output command. unfold ffmpeg_pass, IO.try_except, IO.bind.
  cbv zeta. fold temp_output. fold command.
  split; [| split].
  - intros e Hrun. rewrite Hrun. reflexivity.
  - intros Hrun Htemp. rewrite Hrun. unfold Os.replace. cbv beta iota.
    match goal with
    | |- context [match ?x with Some _ => _ | None => _ end] =>
        replace x with (@None node) by (symmetry; exact Htemp)
    end.
    reflexivity.
  - intros data mode Hrun Htemp Hout. rewrite Hrun. unfold Os.replace.
    cbv beta iota.
    match goal with
    | |- context [match ?x with Some _ => _ | None => _ end] =>
        replace x with (Some (File data mode)) by (symmetry; exact Htemp)
    end.
    match goal with
    | |- context [match ?x with Some _ => _ | None => _ end] =>
        assert (Hout' : x <> Some Dir) by exact Hout;
        destruct x as [[|d m]|]; [contradiction | |]; reflexivity
    end.
Qed.

Lemma ffmpeg_pass_best_effort_witness :
  ffmpeg_pass Sample.no_tools (utf8 "clip.mp4") Sample.media
  = (IO.Ok tt, Sample.media)
  /\ ffmpeg_pass More.idle (utf8 "clip.mp4") Sample.media
     = (IO.Ok tt, Sample.media)
  /\ snd (ffmpeg_pass More.encoder (utf8 "clip.mp4") Sample.media)
       !! utf8 "clip.mp4"
     = Some (File (Blob [7%N]) Os.created_mode).
Proof.
  destruct (ffmpeg_pass_best_effort Sample.no_tools (utf8 "clip.mp4")
              Sample.media Sample.media) as (Hraise & _).
  destruct (ffmpeg_pass_best_effort More.encoder (utf8 "clip.mp4") Sample.media
              (<[utf8 "clip.mp4.temp.mp4" := File (Blob [7%N]) Os.created_mode]>
                 Sample.media)) as (_ & _ & Hdone).
  destruct (ffmpeg_pass_best_effort More.idle (utf8 "clip.mp4")
              Sample.media Sample.media) as (_ & Hidle & _).
  split; [| split].
  - apply (Hraise FileNotFoundError). reflexivity.
  - apply Hidle; [reflexivity | vm_compute; reflexivity].
  - rewrite (Hdone (Blob [7%N]) Os.created_mode);
      [apply lookup_insert_eq | reflexivity | vm_compute; reflexivity
      | vm_compute; discriminate].
Defined.

End VideoOfScript.

(** ** The integrators beyond the bundle *)
Section IntegratorsMore.

Import Py Os.

Lemma lookup_foldr_dirs_cases (l : list str) (w : fs) (p : str) :
  foldr (fun a w' => <[a := Dir]> w') w l !! p = Some Dir
  \/ foldr (fun a w' => <[a := Dir]> w') w l !! p = w !! p.
Proof.
  induction l as [|a l IH]; simpl; [right; reflexivity |].
  destruct (decide (a = p)) as [-> | Hne].
  - left. apply lookup_insert_eq.
  - rewrite lookup_insert_ne by assumption. exact IH.
Qed.

Lemma lookup_made_dirs_cases (w : fs) (d p : str) :
  AlternativeIntegrator.made_dirs w d !! p = Some Dir
  \/ AlternativeIntegrator.made_dirs w d !! p = w !! p.
Proof.
  unfold AlternativeIntegrator.made_dirs.
  destruct (decide (d = p)) as [-> | Hne].
  - left. apply lookup_insert_eq.
  - rewrite lookup_insert_ne by assumption. apply lookup_foldr_dirs_cases.
Qed.

Lemma makedirs_cases (d : str) (w : fs) :
  (exists e, makedirs d w = (IO.Raise e, w))
  \/ makedirs d w = (IO.Ok tt, AlternativeIntegrator.made_dirs w d).
Proof.
  unfold makedirs.
  destruct (negb (truthy d)); [left; eauto |].
  destruct (bool_decide (is_Some (w !! d))); [left; eauto |].
  destruct (existsb (is_file w) (ancestors d)); [left; eauto |].
  right. reflexivity.
Qed.

Lemma copy2_missing (src dst : str) (w : fs) :
  w !! src = None \/ w !! src = Some Dir ->
  exists e, copy2 src dst w = (IO.Raise e, w).
Proof. intros [H | H]; unfold copy2; rewrite H; eauto. Qed.

Lemma bundle_missing_video (encodable : codepoint -> bool)
    (video_path audio_path d : str) (w : fs) :
  w !! video_path = None ->
  exists e w', AlternativeIntegrator.bundle encodable video_path audio_path d w
               = (IO.Raise e, w').
Proof.
  intros Hv. unfold AlternativeIntegrator.bundle.
  rewrite (bind_ok _ _ w (bool_decide (is_Some (w !! d))) w) by reflexivity.
  destruct (bool_decide (is_Some (w !! d))); simpl negb; cbv iota.
  - rewrite (bind_ok _ _ w tt w) by reflexivity.
    destruct (copy2_missing video_path
                (join d AlternativeIntegrator.video_name) w (or_introl Hv))
      as [e He].
    unfold IO.bind at 1. rewrite He. eauto.
  - destruct (makedirs_cases d w) as [[e He] | Hmade].
    + unfold IO.bind at 1. rewrite He. eauto.
    + rewrite (bind_ok _ _ _ _ _ Hmade).
      assert (Hv1 : AlternativeIntegrator.made_dirs w d !! video_path = None
                    \/ AlternativeIntegrator.made_dirs w d !! video_path
                       = Some Dir).
      { destruct (lookup_made_dirs_cases w d video_path) as [H | H];
          [right; exact H | left; rewrite H; exact Hv]. }
      destruct (copy2_missing video_path
                  (join d AlternativeIntegrator.video_name) _ Hv1) as [e He].
      unfold IO.bind at 1. rewrite He. eauto.
Qed.

Lemma ffmpeg_unavailable (tools : Tools.t) (w : fs) (e : exn) :
  Tools.subprocess_run tools Integration.ffmpeg_version w = (IO.Raise e, w) ->
  Integration.subprocess_or_not_found e = true ->
  Integration.ffmpeg_available tools w = (IO.Ok false, w).
Proof.
  intros Hversion He.
  unfold Integration.ffmpeg_available, IO.try_except, IO.bind.
  rewrite Hversion, He. reflexivity.
Qed.

Lemma ffmpeg_is_available (tools : Tools.t) (w w1 : fs) :
  Tools.subprocess_run tools Integration.ffmpeg_version w = (IO.Ok tt, w1) ->
  Integration.ffmpeg_available tools w = (IO.Ok true, w1).
Proof.
  intros Hversion. unfold Integration.ffmpeg_available.
  apply try_except_ok. rewrite (bind_ok _ _ _ _ _ Hversion). reflexivity.
Qed.

(** X13.  Without ffmpeg, the integrator of the pipeline returns [None]
    whenever the video file is missing, whatever else the file system
    holds. *)
Theorem integrate_missing_video tools self video_path audio_path
    output_filename w e :
  Tools.subprocess_run tools Integration.ffmpeg_version w = (IO.Raise e, w) ->
  Integration.subprocess_or_not_found e = true ->
  w !! video_path = None ->
  fst (AlternativeIntegrator.integrate tools self video_path audio_path
         output_filename w)
  = IO.Ok None.
Proof.
  intros Hversion He Hv. unfold AlternativeIntegrator.integrate.
  unfold IO.try_except.
  rewrite (bind_ok _ _ _ _ _ (ffmpeg_unavailable tools w e Hversion He)).
  destruct (bundle_missing_video (Tools.locale_encodes tools)
              video_path audio_path
              (fst (splitext
                      (Integration.output_path
                         (AlternativeIntegrator.output_dir self) video_path
                         output_filename))) w Hv) as (e' & w' & Hbundle).
  unfold IO.bind. rewrite Hbundle. reflexivity.
Qed.

Lemma integrate_missing_video_witness :
  fst (AlternativeIntegrator.integrate Sample.no_tools Sample.integrator
         (utf8 "absent.mp4") (utf8 "voice.mp3") None Sample.media_after_run)
  = IO.Ok None.
Proof.
  apply (integrate_missing_video Sample.no_tools Sample.integrator
           (utf8 "absent.mp4") (utf8 "voice.mp3") None Sample.media_after_run
           FileNotFoundError);
    [reflexivity | reflexivity | vm_compute; reflexivity].
Defined.

(** X14.  A mux command that fails is not made up for by another tier:
    when ffmpeg answers to the check and the command then raises, both
    integrators return [None]. *)
Theorem integrate_mux_failure tools output_dir video_path audio_path
    output_filename w w1 w2 e :
  Tools.subprocess_run tools Integration.ffmpeg_version w = (IO.Ok tt, w1) ->
  Tools.subprocess_run tools
    (Integration.ffmpeg_mux video_path audio_path
       (Integration.output_path output_dir video_path output_filename)) w1
  = (IO.Raise e, w2) ->
  AlternativeIntegrator.integrate tools
    {| AlternativeIntegrator.output_dir := output_dir |}
    video_path audio_path output_filename w
  = (IO.Ok None, w2)
  /\ VoiceVideoIntegrator.integrate tools
       {| VoiceVideoIntegrator.output_dir := output_dir |}
       video_path audio_path output_filename w
     = (IO.Ok None, w2).
Proof.
  intros Hversion Hmux.
  pose proof (ffmpeg_is_available tools w w1 Hversion) as Havail.
  split.
  - unfold AlternativeIntegrator.integrate, IO.try_except.
    rewrite (bind_ok _ _ _ _ _ Havail). cbn [AlternativeIntegrator.output_dir].
    unfold IO.bind. rewrite Hmux. reflexivity.
  - unfold VoiceVideoIntegrator.integrate, IO.try_except at 1.
    rewrite (bind_ok _ _ _ _ _ Havail). cbn [VoiceVideoIntegrator.output_dir].
    unfold IO.bind. rewrite Hmux. reflexivity.
Qed.

Lemma integrate_mux_failure_witness :
  AlternativeIntegrator.integrate More.failing_ffmpeg Sample.integrator
    (utf8 "clip.mp4") (utf8 "voice.mp3") None Sample.media
  = (IO.Ok None, Sample.media).
Proof.
  apply (integrate_mux_failure More.failing_ffmpeg None (utf8 "clip.mp4")
           (utf8 "voice.mp3") None Sample.media Sample.media Sample.media
           CalledProcessError); reflexivity.
Defined.

Lemma keeps_kinds_refl (w : fs) : More.keeps_kinds w w.
Proof. intros p. split; intros H; exact H. Qed.

Lemma keeps_kinds_trans (w1 w2 w3 : fs) :
  More.keeps_kinds w1 w2 -> More.keeps_kinds w2 w3 -> More.keeps_kinds w1 w3.
Proof.
  intros H12 H23 p. destruct (H12 p) as [Hd Hf]. destruct (H23 p) as [Hd' Hf'].
  split; eauto.
Qed.

Lemma keeps_kinds_insert_file (w : fs) (p : str) data mode :
  w !! p <> Some Dir -> More.keeps_kinds w (<[p := File data mode]> w).
Proof.
  intros Hp q. destruct (decide (p = q)) as [<- | Hne].
  - split; [intros H; contradiction |].
    intros _. unfold is_file. rewrite lookup_insert_eq. reflexivity.
  - unfold is_file. rewrite lookup_insert_ne by assumption.
    split; intros H; exact H.
Qed.

Lemma quiet_ret {A} (a : A) : More.quiet (IO.ret a).
Proof. intros w. apply keeps_kinds_refl. Qed.

Lemma quiet_bind {A B} (m : IO.t A) (k : A -> IO.t B) :
  More.quiet m -> (forall a, More.quiet (k a)) -> More.quiet (IO.bind m k).
Proof.
  intros Hm Hk w. unfold IO.bind. specialize (Hm w).
  destruct (m w) as [[a|e] w1]; simpl in *; [| exact Hm].
  eapply keeps_kinds_trans; [exact Hm | apply Hk].
Qed.

Lemma quiet_put p data mode : More.quiet (put p data mode).
Proof.
  intros w. unfold put.
  destruct (negb (is_dir w (dirname p))); [apply keeps_kinds_refl |].
  destruct (w !! p) as [[|d m]|] eqn:E; simpl;
    [apply keeps_kinds_refl | |];
    apply keeps_kinds_insert_file; rewrite E; discriminate.
Qed.

Lemma quiet_copy2 src dst : More.quiet (copy2 src dst).
Proof.
  intros w. unfold copy2.
  destruct (w !! src) as [[|data mode]|]; simpl; try apply keeps_kinds_refl.
  destruct (bool_decide _); [apply keeps_kinds_refl | apply quiet_put].
Qed.

Lemma quiet_chmod p mode : More.quiet (chmod p mode).
Proof.
  intros w. unfold chmod.
  destruct (w !! p) as [[|data m]|] eqn:E; simpl; try apply keeps_kinds_refl.
  apply keeps_kinds_insert_file. rewrite E. discriminate.
Qed.

Lemma quiet_makedirs d : More.quiet (makedirs d).
Proof.
  intros w. unfold makedirs.
  destruct (negb (truthy d)); [apply keeps_kinds_refl |].
  destruct (bool_decide (is_Some (w !! d))) eqn:Hd; [apply keeps_kinds_refl |].
  destruct (existsb (is_file w) (ancestors d)) eqn:Hanc;
    [apply keeps_kinds_refl |].
  apply bool_decide_eq_false in Hd. simpl. intros p. split.
  - intros Hp.
    destruct (lookup_made_dirs_cases w d p) as [H | H];
      [exact H | unfold AlternativeIntegrator.made_dirs in H; rewrite H; exact Hp].
  - unfold is_file. intros Hp.
    destruct (w !! p) as [[|data mode]|] eqn:E; try discriminate.
    assert (Hne : p <> d).
    { intros ->. apply Hd. rewrite E. eauto. }
    assert (Hnot : p ∉ ancestors d).
    { intros Hin.
      assert (Hex : existsb (is_file w) (ancestors d) = true); [| congruence].
      apply existsb_exists. exists p. split; [apply list_elem_of_In, Hin |].
      unfold is_file. rewrite E. reflexivity. }
    pose proof (lookup_made_dirs w d p Hne Hnot) as Hsame.
    unfold AlternativeIntegrator.made_dirs in Hsame. rewrite Hsame, E.
    reflexivity.
Qed.

Lemma quiet_raise {A} (e : exn) : More.quiet (@IO.raise A e).
Proof. intros w. apply keeps_kinds_refl. Qed.

Lemma quiet_write_texts (encodable : codepoint -> bool) (p : str)
    (texts : list str) :
  More.quiet (write_texts encodable p texts).
Proof.
  unfold write_texts. apply quiet_bind; [apply quiet_put |]. intros _.
  destruct (forallb (forallb encodable) texts);
    [apply quiet_ret | apply quiet_raise].
Qed.

Lemma quiet_bundle (encodable : codepoint -> bool)
    (video_path audio_path d : str) :
  More.quiet (AlternativeIntegrator.bundle encodable video_path audio_path d).
Proof.
  unfold AlternativeIntegrator.bundle.
  apply quiet_bind; [intros w; apply keeps_kinds_refl |]. intros there.
  apply quiet_bind.
  { destruct (negb there); [apply quiet_makedirs | apply quiet_ret]. }
  intros _. apply quiet_bind; [apply quiet_copy2 |]. intros _.
  apply quiet_bind; [apply quiet_copy2 |]. intros _.
  apply quiet_bind; [apply quiet_write_texts |]. intros _.
  apply quiet_bind; [apply quiet_chmod |]. intros _.
  apply quiet_write_texts.
Qed.

(** X15.  Without ffmpeg, the integrator of the pipeline removes
    nothing: whether it succeeds or returns [None], every directory is
    still a directory and every file is still a file afterwards, the
    two inputs among them. *)
Theorem integrate_keeps_kinds tools self video_path audio_path
    output_filename w e :
  Tools.subprocess_run tools Integration.ffmpeg_version w = (IO.Raise e, w) ->
  Integration.subprocess_or_not_found e = true ->
  More.keeps_kinds w
    (snd (AlternativeIntegrator.integrate tools self video_path audio_path
            output_filename w)).
Proof.
  intros Hversion He. unfold AlternativeIntegrator.integrate, IO.try_except.
  rewrite (bind_ok _ _ _ _ _ (ffmpeg_unavailable tools w e Hversion He)).
  set (d := fst (splitext _)).
  pose proof (quiet_bundle (Tools.locale_encodes tools) video_path audio_path
                d w) as Hquiet.
  unfold IO.bind.
  destruct (AlternativeIntegrator.bundle _ video_path audio_path d w)
    as [[[]|e'] w']; exact Hquiet.
Qed.

Lemma integrate_keeps_kinds_witness :
  is_file
    (snd (AlternativeIntegrator.integrate Sample.no_tools Sample.integrator
            (utf8 "clip.mp4") (utf8 "voice.mp3") None Sample.media_after_run))
    (utf8 "clip-with-voice/combined.mp4")
  = true.
Proof.
  apply (integrate_keeps_kinds Sample.no_tools Sample.integrator
           (utf8 "clip.mp4") (utf8 "voice.mp3") None Sample.media_after_run
           FileNotFoundError); [reflexivity | reflexivity |].
  vm_compute. reflexivity.
Defined.

(** X16.  Without ffmpeg and with moviepy, the integrator with two
    tools does what the simple integrator does: same result, same
    files. *)
Theorem voice_video_as_simple tools moviepy output_dir video_path audio_path
    output_filename w e :
  Tools.subprocess_run tools Integration.ffmpeg_version w = (IO.Raise e, w) ->
  Integration.subprocess_or_not_found e = true ->
  Tools.moviepy_editor tools = Some moviepy ->
  VoiceVideoIntegrator.integrate tools
    {| VoiceVideoIntegrator.output_dir := output_dir |}
    video_path audio_path output_filename w
  = SimpleVoiceVideoIntegrator.integrate moviepy
      {| SimpleVoiceVideoIntegrator.output_dir := output_dir |}
      video_path audio_path output_filename w.
Proof.
  intros Hversion He Hmoviepy.
  unfold VoiceVideoIntegrator.integrate, SimpleVoiceVideoIntegrator.integrate.
  unfold IO.try_except at 1.
  rewrite (bind_ok _ _ _ _ _ (ffmpeg_unavailable tools w e Hversion He)).
  rewrite Hmoviepy.
  cbn [VoiceVideoIntegrator.output_dir SimpleVoiceVideoIntegrator.output_dir].
  unfold IO.try_except.
  match goal with
  | |- context [IO.bind ?m ?k w] => destruct (IO.bind m k w) as [[r|e'] w']
  end; [reflexivity |].
  destruct (VoiceVideoIntegrator.import_error e'); reflexivity.
Qed.

Lemma voice_video_as_simple_witness :
  VoiceVideoIntegrator.integrate More.only_moviepy Sample.voice_video_integrator
    (utf8 "clip.mp4") (utf8 "voice.mp3") None Sample.media
  = SimpleVoiceVideoIntegrator.integrate More.moviepy
      {| SimpleVoiceVideoIntegrator.output_dir := None |}
      (utf8 "clip.mp4") (utf8 "voice.mp3") None Sample.media.
Proof.
  apply (voice_video_as_simple More.only_moviepy More.moviepy None
           (utf8 "clip.mp4") (utf8 "voice.mp3") None Sample.media
           FileNotFoundError); reflexivity.
Defined.

(** X17.  The clip that the simple integrator hands to the writer: the
    video cut to the length of the audio when it is longer, untouched
    otherwise, with the audio attached; it is never longer than the
    audio.  The result is the output path when the writer succeeds and
    [None] when it raises. *)
Theorem simple_integrate_clip moviepy self video_path audio_path
    output_filename w video_clip audio_clip w1 w2 :
  Tools.VideoFileClip moviepy video_path w = (IO.Ok video_clip, w1) ->
  Tools.AudioFileClip moviepy audio_path w1 = (IO.Ok audio_clip, w2) ->
  let output_path :=
    Integration.output_path (SimpleVoiceVideoIntegrator.output_dir self)
      video_path output_filename in
  exists final_clip,
    Tools.video_source final_clip = Tools.video_source video_clip
    /\ Tools.video_audio final_clip
       = Some (Tools.audio_source audio_clip, Tools.audio_duration audio_clip)
    /\ (Tools.video_duration final_clip <= Tools.audio_duration audio_clip)%Q
    /\ (Tools.video_duration final_clip
        = if Qle_bool (Tools.video_duration video_clip)
               (Tools.audio_duration audio_clip)
          then Tools.video_duration video_clip
          else Tools.audio_duration audio_clip)
    /\ SimpleVoiceVideoIntegrator.integrate moviepy self video_path audio_path
         output_filename w
       = match Tools.write_videofile moviepy final_clip output_path
                 (utf8 "libx264") (utf8 "aac") w2 with
         | (IO.Ok _, w3) => (IO.Ok (Some output_path), w3)
         | (IO.Raise _, w3) => (IO.Ok None, w3)
         end.
Proof.
  intros Hvideo Haudio output_path.
  eexists. split; [| split; [| split; [| split]]].
  5: { unfold SimpleVoiceVideoIntegrator.integrate, IO.try_except.
       cbv zeta. fold output_path.
       rewrite (bind_ok _ _ _ _ _ Hvideo), (bind_ok _ _ _ _ _ Haudio).
       unfold IO.bind.
       match goal with
       | |- context [Tools.write_videofile moviepy ?c _ _ _ w2] =>
           instantiate (1 := c)
       end.
       destruct (Tools.write_videofile _ _ _ _ _ w2) as [[[]|e] w3];
         reflexivity. }
  - destruct (Qle_bool _ _); reflexivity.
  - reflexivity.
  - cbn. destruct (Qle_bool (Tools.video_duration video_clip)
                     (Tools.audio_duration audio_clip)) eqn:E; cbn.
    + apply Qle_bool_iff. exact E.
    + apply Qle_refl.
  - cbn. destruct (Qle_bool _ _); reflexivity.
Qed.

Lemma simple_integrate_clip_witness :
  exists final_clip,
    Tools.video_duration final_clip = 24 # 1
    /\ fst (SimpleVoiceVideoIntegrator.integrate More.moviepy
              {| SimpleVoiceVideoIntegrator.output_dir := None |}
              (utf8 "clip.mp4") (utf8 "voice.mp3") None Sample.media)
       = IO.Ok (Some (utf8 "clip-with-voice.mp4")).
Proof.
  destruct (simple_integrate_clip More.moviepy
              {| SimpleVoiceVideoIntegrator.output_dir := None |}
              (utf8 "clip.mp4") (utf8 "voice.mp3") None Sample.media
              _ _ Sample.media Sample.media eq_refl eq_refl)
    as (final_clip & _ & _ & _ & Hduration & Hrun).
  exists final_clip. split; [rewrite Hduration; reflexivity |].
  vm_compute. reflexivity.
Defined.

(** X18.  The output path of both integrators always ends with [.mp4],
    with or without a file name, and the directory of the bundle, which
    is that path without its extension, is never empty and never ends
    with a slash. *)
Theorem output_path_shape output_dir video_path output_filename :
  endswith (Integration.output_path output_dir video_path output_filename)
    (utf8 ".mp4") = true
  /\ open_ended
       (AlternativeIntegrator.bundle_dir
          {| AlternativeIntegrator.output_dir := output_dir |}
          video_path output_filename) = true.
Proof.
  split.
  - destruct (output_path_mp4 output_dir video_path output_filename) as [y ->].
    apply endswith_suffix.
  - apply bundle_dir_open_ended.
Qed.

End IntegratorsMore.

(** ** The file of a script *)
Section SaveScript.

Import Py ScriptFile.

Local Arguments N.eqb : simpl never.

Lemma hyphenate_from_nonspace s : forall in_run,
  Forall nonspace (hyphenate_from in_run s).
Proof.
  induction s as [|c s IH]; intros in_run; simpl; [constructor |].
  destruct ((c =? hyphen)%N || isspace c) eqn:E.
  - destruct in_run; [apply IH |]. constructor; [reflexivity | apply IH].
  - apply orb_false_iff in E as [_ E]. constructor; [exact E | apply IH].
Qed.

Lemma single_hyphens_cons c s :
  (c <> hyphen \/ starts_without_hyphen s) ->
  single_hyphens s = true -> single_hyphens (c :: s) = true.
Proof.
  intros Hc Hs. destruct s as [|d s]; [reflexivity |].
  change (single_hyphens (c :: d :: s))
    with (negb ((c =? hyphen)%N && (d =? hyphen)%N) && single_hyphens (d :: s)).
  rewrite Hs, andb_true_r. apply negb_true_iff, andb_false_iff.
  destruct Hc as [Hc | Hd]; [left | right]; apply N.eqb_neq; assumption.
Qed.

Lemma hyphenate_from_single s : forall in_run,
  single_hyphens (hyphenate_from in_run s) = true
  /\ (in_run = true -> starts_without_hyphen (hyphenate_from in_run s)).
Proof.
  induction s as [|c s IH]; intros in_run; simpl; [split; [reflexivity | trivial] |].
  destruct ((c =? hyphen)%N || isspace c) eqn:E.
  - destruct in_run.
    + apply IH.
    + destruct (IH true) as [Hs Hh]. split; [| discriminate].
      apply single_hyphens_cons; [right; apply Hh; reflexivity | exact Hs].
  - apply orb_false_iff in E as [E _]. apply N.eqb_neq in E.
    destruct (IH false) as [Hs _]. split.
    + apply single_hyphens_cons; [left; exact E | exact Hs].
    + intros _. exact E.
Qed.

Lemma single_hyphens_before_hyphen (a r : str) :
  single_hyphens a = true -> single_hyphens (hyphen :: r) = true ->
  (single_hyphens (a ++ hyphen :: r) = true <-> last a <> Some hyphen).
Proof.
  intros Ha Hr. induction a as [|c a IH].
  - split; [discriminate | intros _; exact Hr].
  - destruct a as [|d a].
    + change (single_hyphens ([c] ++ hyphen :: r))
        with (negb ((c =? hyphen)%N && (hyphen =? hyphen)%N)
              && single_hyphens (hyphen :: r)).
      rewrite Hr, N.eqb_refl, !andb_true_r.
      change (last [c]) with (Some c).
      rewrite negb_true_iff, N.eqb_neq. split; congruence.
    + change (single_hyphens ((c :: d :: a) ++ hyphen :: r))
        with (negb ((c =? hyphen)%N && (d =? hyphen)%N)
              && single_hyphens ((d :: a) ++ hyphen :: r)).
      change (single_hyphens (c :: d :: a))
        with (negb ((c =? hyphen)%N && (d =? hyphen)%N)
              && single_hyphens (d :: a)) in Ha.
      apply andb_true_iff in Ha as [Hc Hrest].
      rewrite Hc, andb_true_l.
      change (last (c :: d :: a)) with (last (d :: a)).
      apply IH. exact Hrest.
Qed.

(** X19.  The name of the file that [save_script] writes is the slug
    of the title followed by [-script.json].  Whatever the title and
    the Unicode tables, the slug holds no whitespace and no two hyphens
    side by side; the file name holds no whitespace either, and it has
    two hyphens side by side exactly when the slug ends with a hyphen,
    as it does for a title that ends with one. *)
Theorem slug_shape u title :
  let name := slug u title ++ utf8 "-script.json" in
  Forall nonspace (slug u title)
  /\ single_hyphens (slug u title) = true
  /\ Forall nonspace name
  /\ (single_hyphens name = true <-> last (slug u title) <> Some hyphen).
Proof.
  intros name.
  assert (Hspace : Forall nonspace (slug u title))
    by (unfold slug, hyphenate; apply hyphenate_from_nonspace).
  assert (Hsingle : single_hyphens (slug u title) = true)
    by (unfold slug, hyphenate; apply hyphenate_from_single).
  split; [exact Hspace |]. split; [exact Hsingle |]. split.
  - unfold name. apply Forall_app. split; [exact Hspace |].
    vm_compute. repeat constructor.
  - unfold name. apply single_hyphens_before_hyphen; [exact Hsingle |].
    vm_compute. reflexivity.
Qed.

Lemma slug_shape_witness :
  single_hyphens (slug More.ascii_tables (utf8 "Rocq") ++ utf8 "-script.json")
  = true
  /\ slug More.ascii_tables (utf8 "Rocq -") ++ utf8 "-script.json"
     = utf8 "rocq--script.json"
  /\ single_hyphens
       (slug More.ascii_tables (utf8 "Rocq -") ++ utf8 "-script.json")
     <> true.
Proof.
  destruct (slug_shape More.ascii_tables (utf8 "Rocq")) as (_ & _ & _ & Hplain).
  destruct (slug_shape More.ascii_tables (utf8 "Rocq -"))
    as (_ & _ & _ & Hdash).
  split; [| split].
  - apply Hplain. vm_compute. discriminate.
  - vm_compute. reflexivity.
  - intros Hdouble. apply Hdash in Hdouble. apply Hdouble.
    vm_compute. reflexivity.
Defined.

(** X20.  [save_script] returns [None] and writes nothing when no
    directory is given.  When it returns a path, that path is the slug
    of the title followed by [-script.json] in the directory, and the
    file there holds the JSON text of the script. *)
Theorem save_script_result u json_dumps script_data output_dir w :
  (get output_dir [] = [] ->
   save_script u json_dumps script_data output_dir w = (IO.Ok None, w))
  /\ (forall result w',
       get output_dir [] <> [] ->
       save_script u json_dumps script_data output_dir w = (IO.Ok result, w') ->
       let json_path :=
         Os.join (get output_dir [])
           (slug u (Script.title script_data) ++ utf8 "-script.json") in
       result = Some json_path
       /\ exists mode,
            w' !! json_path = Some (File (Text (json_dumps script_data)) mode)).
Proof.
  split.
  - intros Hdir. unfold save_script.
    destruct output_dir as [[|c dir]|]; [reflexivity | discriminate Hdir |
                                         reflexivity].
  - intros result w' Hdir Hrun json_path. unfold save_script in Hrun.
    destruct output_dir as [[|c dir]|];
      [exfalso; apply Hdir; reflexivity | | exfalso; apply Hdir; reflexivity].
    change (get (Some (c :: dir)) []) with (c :: dir) in *.
    change (negb (truthy (c :: dir))) with false in Hrun. cbv iota zeta in Hrun.
    fold json_path in Hrun. unfold IO.bind in Hrun.
    destruct (makedirs_exist_ok (c :: dir) w) as [[[]|e] w1]; [| discriminate].
    unfold Os.write_text, Os.put in Hrun.
    destruct (negb (Os.is_dir w1 (Os.dirname json_path))); [discriminate |].
    destruct (w1 !! json_path) as [[|data old]|]; [discriminate | |];
      injection Hrun as <- <-; (split; [reflexivity |]);
      eexists; apply lookup_insert_eq.
Qed.

Lemma save_script_result_witness :
  save_script More.ascii_tables More.title_only Records.brief None Sample.media
  = (IO.Ok None, Sample.media)
  /\ exists mode,
       snd (save_script More.ascii_tables More.title_only Records.brief
              (Some (utf8 "scripts")) Sample.media)
         !! utf8 "scripts/rocq-script.json"
       = Some (File (Text (utf8 "Rocq")) mode).
Proof.
  destruct (save_script_result More.ascii_tables More.title_only Records.brief
              None Sample.media) as [Hnone _].
  destruct (save_script_result More.ascii_tables More.title_only Records.brief
              (Some (utf8 "scripts")) Sample.media) as [_ Hsome].
  split; [apply Hnone; reflexivity |].
  destruct (Hsome (Some (utf8 "scripts/rocq-script.json"))
              (snd (save_script More.ascii_tables More.title_only Records.brief
                      (Some (utf8 "scripts")) Sample.media)))
    as (_ & mode & Hfile);
    [discriminate | vm_compute; reflexivity |].
  exists mode. exact Hfile.
Defined.

End SaveScript.

(** ** The voice and the pipeline *)
Section Pipeline.

Import Py Os ShortsGenerator.

Local Arguments N.eqb : simpl never.

Lemma all_of_app c (a b : str) : all_of c (a ++ b) = all_of c a && all_of c b.
Proof. unfold all_of. apply forallb_app. Qed.

(** Without its extension, a path that ends with [-with-voice.mp4]
    ends with [-with-voice]. *)
Lemma splitext_with_voice (y : str) :
  fst (splitext (y ++ utf8 "-with-voice.mp4")) = y ++ utf8 "-with-voice".
Proof.
  change (utf8 "-with-voice.mp4") with (utf8 "-with-voice" ++ dot :: utf8 "mp4").
  assert (Hmp4 : Forall (fun x => x <> dot) (utf8 "mp4"))
    by (repeat constructor; discriminate).
  assert (Htail : Forall (fun x => x <> slash)
                    (utf8 "-with-voice" ++ dot :: utf8 "mp4"))
    by (repeat constructor; discriminate).
  assert (Hdots : forall z : str, all_of dot (z ++ utf8 "-with-voice") = false).
  { intros z. rewrite all_of_app. apply andb_false_r. }
  unfold splitext.
  pose proof (rsplit_at_spec slash y) as Hy.
  destruct (rsplit_at slash y) as [[a z]|].
  - destruct Hy as [Hy Hz].
    assert (Hrs : rsplit_at slash
                    (y ++ utf8 "-with-voice" ++ dot :: utf8 "mp4")
                  = Some (a, z ++ utf8 "-with-voice" ++ dot :: utf8 "mp4")).
    { rewrite Hy, <- app_assoc. simpl app at 1.
      apply rsplit_at_app, Forall_app. split; assumption. }
    rewrite Hrs.
    rewrite (app_assoc z), rsplit_at_app by assumption.
    rewrite Hdots. simpl fst. rewrite Hy, <- !app_assoc. reflexivity.
  - assert (Hrs : rsplit_at slash
                    (y ++ utf8 "-with-voice" ++ dot :: utf8 "mp4") = None).
    { apply rsplit_at_none, Forall_app. split; assumption. }
    rewrite Hrs.
    rewrite (app_assoc y), rsplit_at_app by assumption.
    rewrite Hdots. reflexivity.
Qed.

(** Without a file name, the output path of the integrators ends with
    [-with-voice.mp4]. *)
Lemma output_path_with_voice output_dir video_path :
  exists y,
    Integration.output_path output_dir video_path None
    = y ++ utf8 "-with-voice.mp4".
Proof.
  unfold Integration.output_path.
  change (truthy (get None [])) with false. cbv iota zeta.
  set (video_name := fst (splitext (basename video_path))).
  assert (Hmp4 : endswith (video_name ++ utf8 "-with-voice.mp4") (utf8 ".mp4")
                 = true).
  { change (utf8 "-with-voice.mp4") with (utf8 "-with-voice" ++ utf8 ".mp4").
    rewrite app_assoc. apply endswith_suffix. }
  rewrite Hmp4. simpl negb. cbv iota.
  destruct (truthy (get output_dir [])); [| exists video_name; reflexivity].
  destruct (join_suffix (get output_dir [])
              (video_name ++ utf8 "-with-voice.mp4")) as [z ->].
  exists (z ++ video_name). rewrite <- app_assoc. reflexivity.
Qed.

Lemma final_name_mp4 (y : str) : final_name (y ++ utf8 "-with-voice.mp4") = true.
Proof. unfold final_name. rewrite endswith_suffix. reflexivity. Qed.

Lemma final_name_dir (y : str) : final_name (y ++ utf8 "-with-voice") = true.
Proof. unfold final_name. rewrite (endswith_suffix y). apply orb_true_r. Qed.

Lemma integrate_default_name tools self video_path audio_path w :
  match fst (AlternativeIntegrator.integrate tools self video_path audio_path
               None w) with
  | IO.Ok (Some p) => final_name p = true
  | IO.Ok None => True
  | IO.Raise _ => False
  end.
Proof.
  unfold AlternativeIntegrator.integrate, IO.try_except. cbv zeta.
  destruct (output_path_with_voice (AlternativeIntegrator.output_dir self)
              video_path) as [y ->].
  unfold IO.bind.
  destruct (Integration.ffmpeg_available tools w) as [[[|]|e] w1];
    [| | exact I].
  - destruct (Tools.subprocess_run tools _ w1) as [[[]|e] w2]; [| exact I].
    apply final_name_mp4.
  - destruct (AlternativeIntegrator.bundle _ _ _ _ w1) as [[[]|e] w2];
      [| exact I].
    simpl fst. rewrite splitext_with_voice. apply final_name_dir.
Qed.

Lemma returns_ret {A} (P : A -> Prop) (a : A) : P a -> returns P (IO.ret a).
Proof. intros H w. exact H. Qed.

Lemma returns_bind {A B} (P : B -> Prop) (m : IO.t A) (k : A -> IO.t B) :
  (forall a, returns P (k a)) -> returns P (IO.bind m k).
Proof.
  intros Hk w. unfold IO.bind.
  destruct (m w) as [[a|e] w1]; [apply Hk | exact I].
Qed.

(** The text that is spoken for a script made with a budget of at
    least one word. *)
Lemma narration_words self article g :
  1 <= ShortScriptGenerator.max_words self ->
  0 < len (split (VoiceGenerator.narration
                    (fst (ShortScriptGenerator.generate_script self article g))))
    <= ShortScriptGenerator.max_words self.
Proof.
  intros Hmax.
  set (r := fst (ShortScriptGenerator.generate_script self article g)).
  destruct (generate_script_fields self article g) as (Hfull & _).
  fold r in Hfull.
  pose proof (joined_has_word self article g) as Hword. fold r in Hword.
  assert (Hcount : 0 < len (split (Script.full_script r))
                   <= ShortScriptGenerator.max_words self).
  { rewrite Hfull.
    destruct (Z.le_gt_cases (len (split (ShortScriptGenerator.joined r)))
                (ShortScriptGenerator.max_words self)) as [Hfit | Hover].
    - unfold ShortScriptGenerator._adjust_script_length. cbv zeta.
      apply Z.leb_le in Hfit as Hfit'. rewrite Hfit'. lia.
    - rewrite over_budget_count by lia. lia. }
  unfold VoiceGenerator.narration. cbv zeta.
  destruct (Script.full_script r) eqn:E; [| exact Hcount].
  change (len (split [])) with 0 in Hcount. lia.
Qed.

(** X21.  [generate_audio] never raises.  It asks the synthesis once,
    for a file whose name ends with [.mp3]; it returns that path when
    the synthesis succeeds and [None] when it raises. *)
Theorem generate_audio_result u gtts_save self script_data output_filename w :
  exists output_path y,
    output_path = y ++ utf8 ".mp3"
    /\ VoiceGenerator.generate_audio u gtts_save self script_data
         output_filename w
       = match gtts_save (VoiceGenerator.narration script_data)
                 (VoiceGenerator.language self) (VoiceGenerator.slow self)
                 output_path w with
         | (IO.Ok _, w') => (IO.Ok (Some output_path), w')
         | (IO.Raise _, w') => (IO.Ok None, w')
         end.
Proof.
  unfold VoiceGenerator.generate_audio, IO.try_except, IO.bind. cbv zeta.
  set (name := if truthy (get output_filename []) then _ else _).
  set (full := if negb (endswith name (utf8 ".mp3")) then _ else _).
  assert (Hfull : exists y, full = y ++ utf8 ".mp3").
  { subst full. destruct (endswith name (utf8 ".mp3")) eqn:E; simpl.
    - apply endswith_app. exact E.
    - exists name. reflexivity. }
  clearbody full. destruct Hfull as [y ->].
  set (output_path := if truthy (get (VoiceGenerator.output_dir self) [])
                      then _ else _).
  assert (Hpath : exists z, output_path = z ++ utf8 ".mp3").
  { subst output_path.
    destruct (truthy (get (VoiceGenerator.output_dir self) []));
      [| exists y; reflexivity].
    destruct (join_suffix (get (VoiceGenerator.output_dir self) [])
                (y ++ utf8 ".mp3")) as [z ->].
    exists (z ++ y). rewrite <- app_assoc. reflexivity. }
  clearbody output_path. destruct Hpath as [z Hz].
  exists output_path, z. split; [exact Hz |].
  destruct (gtts_save _ _ _ output_path w) as [[[]|e] w']; reflexivity.
Qed.

(** X22.  The pipeline never raises, and a path that it returns ends
    with [-with-voice.mp4], or with [-with-voice] when it is the
    directory of a bundle. *)
Theorem generate_from_article_final_path lib tools u json_dumps gtts_save
    self article_data g w :
  match fst (generate_from_article lib tools u json_dumps gtts_save self
               article_data g w) with
  | IO.Ok (Some p) => final_name p = true
  | IO.Ok None => True
  | IO.Raise _ => False
  end.
Proof.
  unfold generate_from_article, IO.try_except. cbv zeta.
  set (body := IO.bind _ _).
  assert (Hbody : returns (fun r => match r with
                                    | Some p => final_name p = true
                                    | None => True
                                    end) body).
  { subst body. apply returns_bind. intros _.
    apply returns_bind. intros video_path.
    destruct (negb (truthy (get video_path []))); [apply returns_ret; exact I |].
    apply returns_bind. intros audio_path.
    destruct (negb (truthy (get audio_path []))); [apply returns_ret; exact I |].
    intros w1. unfold IO.bind.
    pose proof (integrate_default_name tools (integrator self)
                  (get video_path []) (get audio_path []) w1) as Hname.
    destruct (AlternativeIntegrator.integrate _ _ _ _ _ w1)
      as [[[p|]|e] w2]; simpl in *; [| exact I | exact I].
    destruct (truthy p); simpl; [exact Hname | exact I]. }
  specialize (Hbody w). clearbody body.
  destruct (body w) as [[[p|]|e] w1]; simpl in *; [exact Hbody | exact I | exact I].
Qed.

(** X23.  In the pipeline the speech synthesis is only ever asked for a
    text of 1 to 150 words: a synthesis that refuses every other text
    gives the same run. *)
Theorem generate_from_article_speech lib tools u json_dumps gtts_save self
    article_data g w :
  generate_from_article lib tools u json_dumps (checked gtts_save) self
    article_data g w
  = generate_from_article lib tools u json_dumps gtts_save self
      article_data g w.
Proof.
  assert (Hbudget :
            within_budget
              (VoiceGenerator.narration
                 (fst (ShortScriptGenerator.generate_script script_generator
                         article_data g))) = true).
  { pose proof (narration_words script_generator article_data g) as Hwords.
    change (ShortScriptGenerator.max_words script_generator) with 150
      in Hwords.
    unfold within_budget. apply andb_true_iff.
    split; apply Z.leb_le; lia. }
  unfold generate_from_article, VoiceGenerator.generate_audio, checked.
  cbv zeta. rewrite Hbudget. reflexivity.
Qed.

(** A run of the pipeline on a machine without ffmpeg: the bundle is
    made and its directory returned. *)
Example pipeline_run :
  fst (generate_from_article Sample.imaging Sample.no_tools More.ascii_tables
         More.title_only More.recorder More.local_pipeline
         Sample.short_article Sample.zeros ∅)
  = IO.Ok (Some (utf8 "rocq-with-voice")).
Proof. vm_compute. reflexivity. Qed.

End Pipeline.
